(** * Creator Coach System: the retrieval pipeline of [knowledge_base/rag_system.py]

    A shallow embedding of the class [RAGKnowledgeBase]: token chunking,
    the quality heuristic, the chunk builder, embedding with fallback,
    index construction, persistence and quality-weighted search.

    Conventions of the embedding.
    - A Python [float] is an IEEE 754 binary64 number, represented by the
      Standard Library's [spec_float] with the operations at precision 53.
    - A Python [str] is a [string] whose characters are read as the code
      points below 256.
    - A Python exception is a value [Raise e] of the monad [result].
    - The tokenizer, the embedding services and the inner products computed
      by the vector index are services outside the repository; they are
      fields of the classes [Tokenizer] and [Services]. *)

From Stdlib Require Import ZArith List String Ascii Lia Bool Permutation Sorted.
From Stdlib Require Import SpecFloat PrimFloat FloatOps.
From stdpp Require Import base option gmap strings pretty.
Import ListNotations.

Local Open Scope string_scope.
Local Open Scope Z_scope.

(* ===================================================================== *)
(** ** Python values *)
(* ===================================================================== *)

(** *** Exceptions *)

Inductive exn : Type :=
  | IndexError
  | ValueError
  | TypeError
  | AssertionError
  | OSError.

Inductive result (A : Type) : Type :=
  | Ok (a : A)
  | Raise (e : exn).

Arguments Ok {A} a.
Arguments Raise {A} e.

Definition bind {A B : Type} (m : result A) (f : A -> result B) : result B :=
  match m with
  | Ok a => f a
  | Raise e => Raise e
  end.

Notation "'do' x <- m ; f" := (bind m (fun x => f))
  (at level 10, x name, m at level 100, f at level 200).

(** [mapM f l] runs [f] on the elements of [l] from left to right and stops
    at the first exception, as a [for] loop does. *)
Fixpoint mapM {A B : Type} (f : A -> result B) (l : list A) : result (list B) :=
  match l with
  | [] => Ok []
  | a :: l' => do b <- f a; do bs <- mapM f l'; Ok (b :: bs)
  end.

(** *** Floats *)

Module PyFloat.

Definition t : Type := spec_float.

Definition add (x y : t) : t := SFadd prec emax x y.
Definition mul (x y : t) : t := SFmul prec emax x y.

(** [x < y], [x <= y] and [x > y] of Python. *)
Definition ltb (x y : t) : bool := SFltb x y.
Definition leb (x y : t) : bool := SFleb x y.
Definition gtb (x y : t) : bool := SFltb y x.

Definition is_nan (x : t) : bool :=
  match x with S754_nan => true | _ => false end.

(** [min(x, y)] of Python: the first argument unless the second one is
    strictly smaller. *)
Definition min (x y : t) : t := if ltb y x then y else x.

(** The literals of the source, each the binary64 number nearest to the
    decimal Python reads. *)
Definition f_0_0 : t := S754_zero false.
Definition f_0_1 : t := Eval vm_compute in Prim2SF 0x1.999999999999ap-4%float.
Definition f_0_2 : t := Eval vm_compute in Prim2SF 0x1.999999999999ap-3%float.
Definition f_0_3 : t := Eval vm_compute in Prim2SF 0x1.3333333333333p-2%float.
Definition f_0_4 : t := Eval vm_compute in Prim2SF 0x1.999999999999ap-2%float.
Definition f_0_5 : t := Eval vm_compute in Prim2SF 0x1p-1%float.
Definition f_1_0 : t := Eval vm_compute in Prim2SF 0x1p+0%float.

(** [float(n)] for an integer that binary64 holds exactly. *)
Definition f_500 : t := Eval vm_compute in Prim2SF 500%float.

(** The least finite float32, [-FLT_MAX], as a binary64 number. *)
Definition neg_flt_max : t :=
  Eval vm_compute in Prim2SF (-0x1.fffffep+127)%float.

End PyFloat.

Abbreviation pyfloat := PyFloat.t.

(** *** Strings *)

Module PyStr.

(** [str.isspace] on the code points below 256. *)
Definition is_space (c : ascii) : bool :=
  let n := nat_of_ascii c in
  ((9 <=? n) && (n <=? 13) || (28 <=? n) && (n <=? 32)
   || (n =? 133) || (n =? 160))%nat.

Definition is_empty (s : string) : bool :=
  match s with EmptyString => true | String _ _ => false end.

(** [split_from cur s]: the words of [s], the first one prefixed by the
    characters [cur] already read. *)
Fixpoint split_from (cur : string) (s : string) : list string :=
  match s with
  | EmptyString => if is_empty cur then [] else [cur]
  | String c s' =>
      if is_space c
      then (if is_empty cur then split_from "" s'
            else cur :: split_from "" s')
      else split_from (cur ++ String c "")%string s'
  end.

(** [s.split()]: the maximal runs of characters that are not white space. *)
Definition split (s : string) : list string := split_from "" s.

Fixpoint lstrip (s : string) : string :=
  match s with
  | EmptyString => EmptyString
  | String c s' => if is_space c then lstrip s' else s
  end.

Fixpoint rstrip (s : string) : string :=
  match s with
  | EmptyString => EmptyString
  | String c s' =>
      let r := rstrip s' in
      if is_space c && is_empty r then EmptyString else String c r
  end.

(** [s.strip()] *)
Definition strip (s : string) : string := rstrip (lstrip s).

(** [str.lower] on the code points below 256: the letters A-Z and the
    capital letters of Latin-1 (0xC0-0xDE but the sign 0xD7). *)
Definition lower_char (c : ascii) : ascii :=
  let n := nat_of_ascii c in
  if ((65 <=? n) && (n <=? 90)
      || (192 <=? n) && (n <=? 222) && negb (n =? 215))%nat
  then ascii_of_nat (n + 32) else c.

Fixpoint lower (s : string) : string :=
  match s with
  | EmptyString => EmptyString
  | String c s' => String (lower_char c) (lower s')
  end.

(** [sub in s] *)
Fixpoint contains (sub s : string) : bool :=
  String.prefix sub s
  || match s with
     | EmptyString => false
     | String _ s' => contains sub s'
     end.

(** [bool(s)] for an optional string ([None] or a missing key is false,
    and so is the empty string). *)
Definition truthy (o : option string) : bool :=
  match o with
  | Some s => negb (is_empty s)
  | None => false
  end.

End PyStr.

(** *** Lists *)

(** [l[i]] for a Python list: a negative index counts from the end. *)
Definition py_index {A : Type} (l : list A) (i : Z) : result A :=
  let n := Z.of_nat (List.length l) in
  let j := if i <? 0 then i + n else i in
  if (0 <=? j) && (j <? n)
  then match nth_error l (Z.to_nat j) with
       | Some a => Ok a
       | None => Raise IndexError
       end
  else Raise IndexError.

(** [l[i:j]] for [0 <= i <= j]. *)
Definition py_slice {A : Type} (l : list A) (i j : Z) : list A :=
  firstn (Z.to_nat (j - i)) (skipn (Z.to_nat i) l).

(** [range(0, stop, step)]: a [ValueError] for a zero step, nothing for a
    negative one (with [stop >= 0]), else [0, step, 2*step, ...] below
    [stop]. *)
Definition py_range (stop step : Z) : result (list Z) :=
  if step =? 0 then Raise ValueError
  else if step <? 0 then Ok []
  else Ok (map (fun j => Z.of_nat j * step)
               (seq 0 (Z.to_nat ((stop + step - 1) / step)))).

(** [enumerate(l)] *)
Definition enumerate {A : Type} (l : list A) : list (Z * A) :=
  combine (map Z.of_nat (seq 0 (List.length l))) l.

(* ===================================================================== *)
(** ** Data model *)
(* ===================================================================== *)

(** A post is a dictionary read with [post.get]; a field is [None] when the
    key is missing. *)
Record Post : Type := mkPost {
  post_id : option string;
  post_type : option string;
  post_date : option string;
  caption_text : option string;
  transcript : option string;
  media_url : option string;
  likes : option Z;
  comments : option Z;
  engagement_rate : option pyfloat;
  hashtags : option (list string)
}.

(** The coach profile is passed along and never read by the knowledge base. *)
Record CoachProfile : Type := mkCoachProfile {
  username : string;
  platform : string;
  total_posts : Z;
  transcribed_posts : Z
}.

Record PostMetadata : Type := mkPostMetadata {
  md_post_id : option string;
  md_post_type : option string;
  md_post_date : option string;
  md_likes : Z;
  md_comments : Z;
  md_hashtags : list string;
  md_media_url : option string
}.

Record EngagementMetrics : Type := mkEngagementMetrics {
  em_likes : Z;
  em_comments : Z;
  em_engagement_rate : pyfloat
}.

(** A chunk dictionary. The keys [chunk_index], [engagement_metrics] and
    [content_quality] are not on every chunk. *)
Record Chunk : Type := mkChunk {
  chunk_text : string;
  chunk_type : string;
  topic_tags : list string;
  post_metadata : PostMetadata;
  chunk_index : option Z;
  engagement_metrics : option EngagementMetrics;
  content_quality : option pyfloat
}.

(** A search result: the copy of a chunk with its two scores. *)
Record SearchResult : Type := mkSearchResult {
  sr_chunk : Chunk;
  similarity_score : pyfloat;
  final_score : pyfloat
}.

(** [post.get('likes', 0)] and its siblings. *)
Definition get_likes (post : Post) : Z := default 0 (likes post).
Definition get_comments (post : Post) : Z := default 0 (comments post).
Definition get_engagement_rate (post : Post) : pyfloat :=
  default PyFloat.f_0_0 (engagement_rate post).

(* ===================================================================== *)
(** ** Tokenizer/Chunker *)
(* ===================================================================== *)

(** The token encoding ([tiktoken]) behind [self.encoding]. *)
Class Tokenizer : Type := {
  token : Type;
  encode : string -> list token;
  decode : list token -> string
}.

Section Chunking.

Context {T : Tokenizer}.

Definition _chunk_by_tokens (text : string) (max_tokens : Z)
  : result (list string) :=
  let tokens := encode text in
  do starts <- py_range (Z.of_nat (List.length tokens)) max_tokens;
  Ok (map (fun i => decode (py_slice tokens i (i + max_tokens))) starts).

(* =================================================================== *)
(** ** Quality Scorer *)
(* =================================================================== *)

Definition _assess_content_quality (text : string) (post : Post) : pyfloat :=
  let quality_score := PyFloat.f_0_0 in
  let text_length := Z.of_nat (List.length (PyStr.split text)) in
  let quality_score :=
    if (15 <=? text_length) && (text_length <=? 150)
    then PyFloat.add quality_score PyFloat.f_0_3 else quality_score in
  let likes := get_likes post in
  let quality_score :=
    if likes >? 1000 then PyFloat.add quality_score PyFloat.f_0_4
    else if likes >? 500 then PyFloat.add quality_score PyFloat.f_0_2
    else quality_score in
  let quality_score :=
    if PyStr.contains "?" text
    then PyFloat.add quality_score PyFloat.f_0_1 else quality_score in
  let quality_score :=
    if existsb (fun word => PyStr.contains word (PyStr.lower text))
               ["how to"; "tip"; "strategy"; "step"]
    then PyFloat.add quality_score PyFloat.f_0_2 else quality_score in
  PyFloat.min quality_score PyFloat.f_1_0.

(* =================================================================== *)
(** ** Chunk Builder *)
(* =================================================================== *)

Definition _extract_post_metadata (post : Post) : PostMetadata :=
  {| md_post_id := post_id post;
     md_post_type := post_type post;
     md_post_date := post_date post;
     md_likes := get_likes post;
     md_comments := get_comments post;
     md_hashtags := default [] (hashtags post);
     md_media_url := media_url post |}.

Definition _chunk_semantically (content : string) (post : Post)
    (content_type : string) : result (list Chunk) :=
  let chunk_size :=
    if String.eqb content_type "transcript" then 200 else 100 in
  do chunk_texts <- _chunk_by_tokens content chunk_size;
  Ok (flat_map
        (fun '(i, chunk_text) =>
           if Z.of_nat (String.length (PyStr.strip chunk_text)) <? 20
           then []
           else [ {| chunk_text := PyStr.strip chunk_text;
                     chunk_type := ("semantic_" ++ content_type)%string;
                     topic_tags := [content_type];
                     post_metadata := _extract_post_metadata post;
                     chunk_index := Some i;
                     engagement_metrics := None;
                     content_quality :=
                       Some (_assess_content_quality chunk_text post) |} ])
        (enumerate chunk_texts)).

(** [a or b] on optional strings. *)
Definition py_or (a b : option string) : option string :=
  if PyStr.truthy a then a else b.

Definition _create_high_value_chunk (post : Post) : option Chunk :=
  if negb (PyStr.truthy (caption_text post))
     && negb (PyStr.truthy (transcript post))
  then None
  else
    match py_or (transcript post) (caption_text post) with
    | Some content =>
        Some {| chunk_text := content;
                chunk_type := "high_value";
                topic_tags := ["viral"; "high_engagement"];
                post_metadata := _extract_post_metadata post;
                chunk_index := None;
                engagement_metrics :=
                  Some {| em_likes := get_likes post;
                          em_comments := get_comments post;
                          em_engagement_rate := get_engagement_rate post |};
                content_quality := Some PyFloat.f_1_0 |}
    | None => None
    end.

(** Strategy 3 of [_chunk_content_strategically]: what a post with many
    likes or a high engagement rate appends to its chunks. *)
Definition engagement_chunks (post : Post) : list Chunk :=
  if (get_likes post >? 1000)
     || PyFloat.gtb (get_engagement_rate post) PyFloat.f_500
  then match _create_high_value_chunk post with
       | Some engagement_chunk => [engagement_chunk]
       | None => []
       end
  else [].

(** The body of the loop of [_chunk_content_strategically]: the chunks of
    one post. *)
Definition post_chunks (post : Post) : result (list Chunk) :=
  do caption_chunks <-
    (match caption_text post with
     | Some caption =>
         if PyStr.truthy (Some caption)
         then _chunk_semantically caption post "caption" else Ok []
     | None => Ok []
     end);
  do transcript_chunks <-
    (match transcript post with
     | Some script =>
         if PyStr.truthy (Some script)
         then _chunk_semantically script post "transcript" else Ok []
     | None => Ok []
     end);
  Ok (caption_chunks ++ transcript_chunks ++ engagement_chunks post)%list.

Definition _chunk_content_strategically (posts : list Post)
    (coach_profile : CoachProfile) : result (list Chunk) :=
  do per_post <- mapM post_chunks posts;
  Ok (concat per_post).

End Chunking.

(** A tokenizer with one token per character, to run the chunker on
    examples. *)
Definition char_tokenizer : Tokenizer :=
  {| token := ascii;
     encode := list_ascii_of_string;
     decode := string_of_list_ascii |}.

(** A byte-level tokenizer in the manner of [tiktoken], with one token per
    byte of the UTF-8 form of the text: a code point below 128 is one byte,
    a code point from 128 to 255 is a lead byte (0xC2 or 0xC3) and a
    continuation byte.  Decoding never fails: a byte that does not belong
    to a complete sequence is answered with the replacement character
    ([errors='replace']), which lies outside the code points of this model
    and is written [?] here. *)
Definition utf8_encode_char (c : ascii) : list ascii :=
  let n := nat_of_ascii c in
  if (n <? 128)%nat then [c]
  else [ascii_of_nat (192 + n / 64); ascii_of_nat (128 + n mod 64)].

Fixpoint utf8_encode (s : string) : list ascii :=
  match s with
  | EmptyString => []
  | String c s' => (utf8_encode_char c ++ utf8_encode s')%list
  end.

Fixpoint utf8_decode (bytes : list ascii) : string :=
  match bytes with
  | [] => EmptyString
  | b :: rest =>
      let n := nat_of_ascii b in
      if (n <? 128)%nat then String b (utf8_decode rest)
      else
        match rest with
        | b' :: rest' =>
            let n' := nat_of_ascii b' in
            if ((194 <=? n) && (n <=? 195) && (128 <=? n') && (n' <? 192))%nat
            then String (ascii_of_nat ((n - 192) * 64 + (n' - 128)))
                        (utf8_decode rest')
            else String "?" (utf8_decode rest)
        | [] => String "?" EmptyString
        end
  end.

Definition utf8_tokenizer : Tokenizer :=
  {| token := ascii;
     encode := utf8_encode;
     decode := utf8_decode |}.

(** The text of one character, [e] with an acute accent (code point 233). *)
Definition e_acute : string := String "233" EmptyString.

(** *** Sorting

    [l.sort(key=key, reverse=True)] is a stable sort in descending order of
    the keys, the keys compared with [<] alone: of two elements the later
    one moves in front only when its key is strictly greater. Where [<] is
    a strict weak order on the keys (no NaN among them) every stable sort
    computes the list that [sort_desc] computes. *)
Fixpoint insert_desc {A : Type} (key : A -> pyfloat) (x : A) (l : list A)
  : list A :=
  match l with
  | [] => [x]
  | y :: l' =>
      if PyFloat.ltb (key x) (key y) then y :: insert_desc key x l'
      else x :: y :: l'
  end.

Fixpoint sort_desc {A : Type} (key : A -> pyfloat) (l : list A) : list A :=
  match l with
  | [] => []
  | x :: l' => insert_desc key x (sort_desc key l')
  end.

(* ===================================================================== *)
(** ** Embedder and Vector Index: the outside services *)
(* ===================================================================== *)

Definition vector : Type := list pyfloat.

Class Services : Type := {
  (** [self.openai_client.embeddings.create(model=..., input=batch)]: the
      embeddings of [response.data], or [None] when the call raises. *)
  openai_embed : list string -> option (list vector);
  (** [self.sentence_model.encode(batch)] *)
  sentence_encode : list string -> list vector;
  (** [faiss.normalize_L2] on one row. *)
  normalize_L2 : vector -> vector;
  (** The inner product the index computes between a query row and one of
      its stored vectors. *)
  inner_product : vector -> vector -> pyfloat
}.

(** *** numpy arrays of [float32] *)

Record ndarray : Type := mkArray {
  shape : list Z;
  rows : list vector
}.

(** [np.array(embeddings, dtype='float32')] on a list of lists: the empty
    list gives a one-dimensional array of shape (0,), rows of one length [d]
    give shape (n, d), and rows of different lengths are refused. *)
Definition np_array (embeddings : list vector) : result ndarray :=
  match embeddings with
  | [] => Ok {| shape := [0]; rows := [] |}
  | v :: _ =>
      if forallb (fun w => (List.length w =? List.length v)%nat) embeddings
      then Ok {| shape := [Z.of_nat (List.length embeddings);
                           Z.of_nat (List.length v)];
                 rows := embeddings |}
      else Raise ValueError
  end.

(** *** The flat inner-product index of FAISS *)

Record FaissIndex : Type := mkIndex {
  index_d : Z;
  index_xb : list vector
}.

Definition ntotal (ix : FaissIndex) : Z := Z.of_nat (List.length (index_xb ix)).

(** [faiss.IndexFlatIP(d)] *)
Definition IndexFlatIP (d : Z) : FaissIndex := {| index_d := d; index_xb := [] |}.

(** [index.add(x)]: the wrapper reads [n, d = x.shape] and asserts
    [d == self.d]. *)
Definition index_add (ix : FaissIndex) (x : ndarray) : result FaissIndex :=
  match shape x with
  | [_; d] =>
      if d =? index_d ix
      then Ok {| index_d := index_d ix;
                 index_xb := (index_xb ix ++ rows x)%list |}
      else Raise AssertionError
  | _ => Raise ValueError
  end.

(** The answer of a flat index to one query, given the inner product [sims]
    of the query with each stored vector: exactly [k] entries, the best
    labels first in descending order of score (of equal scores the lower
    label first), and when the index holds fewer than [k] vectors the
    missing entries carry the label [-1] and the score [-FLT_MAX]. *)
Definition top_k (sims : list pyfloat) (k : Z) : list (pyfloat * Z) :=
  let ranked :=
    sort_desc fst (combine sims (map Z.of_nat (seq 0 (List.length sims)))) in
  let found := firstn (Z.to_nat k) ranked in
  (found ++ repeat (PyFloat.neg_flt_max, -1)
                   (Z.to_nat k - List.length found))%list.

(** [index.search(x, k)] for an array [x] of one query row: the wrapper
    reads [n, d = x.shape], asserts [d == self.d] and asserts [k > 0]. *)
Definition faiss_search {Sv : Services} (ix : FaissIndex) (x : ndarray)
    (k : Z) : result (list (pyfloat * Z)) :=
  match shape x, rows x with
  | [_; d], [q] =>
      if negb (d =? index_d ix) then Raise AssertionError
      else if k <=? 0 then Raise AssertionError
      else Ok (top_k (map (inner_product q) (index_xb ix)) k)
  | _, _ => Raise ValueError
  end.

(* ===================================================================== *)
(** ** The relational store ([DatabaseManager]) *)
(* ===================================================================== *)

Record DbPost : Type := mkDbPost {
  row_id : Z;
  row_creator_id : Z;
  row_post_id : option string
}.

Record DbChunk : Type := mkDbChunk {
  kc_creator_id : Z;
  kc_post_id : Z;
  kc_chunk_text : string;
  kc_chunk_type : string;
  kc_topic_tags : list string;
  kc_embedding_vector : vector
}.

Record Database : Type := mkDatabase {
  posts_table : list DbPost;
  knowledge_chunks : list DbChunk
}.

Definition delete_creator_knowledge_chunks (db : Database) (creator_id : Z)
  : Database :=
  {| posts_table := posts_table db;
     knowledge_chunks :=
       List.filter (fun c => negb (kc_creator_id c =? creator_id))
                   (knowledge_chunks db) |}.

Definition get_creator_posts (db : Database) (creator_id : Z) : list DbPost :=
  List.filter (fun p => row_creator_id p =? creator_id) (posts_table db).

Definition add_knowledge_chunk (db : Database) (c : DbChunk) : Database :=
  {| posts_table := posts_table db;
     knowledge_chunks := (knowledge_chunks db ++ [c])%list |}.

(* ===================================================================== *)
(** ** Knowledge Base Store: the files *)
(* ===================================================================== *)

(** What a file holds: [faiss.write_index] and [json.dump] are read back by
    [faiss.read_index] and [json.load] as the value written. *)
Inductive File : Type :=
  | IndexFile (ix : FaissIndex)
  | MetadataFile (chunks : list Chunk).

(** The point at which the file system fails during a save, if it does. *)
Inductive fault : Type :=
  | NoFault
  | FailBeforeIndex
  | FailBeforeMetadata.

(** The object [self]. *)
Record RAGKnowledgeBase : Type := mkRAG {
  db : option Database;
  index : option FaissIndex;
  chunk_metadata : list Chunk;
  embedding_dimension : Z
}.

(** [RAGKnowledgeBase(openai_api_key, database_manager)] *)
Definition __init__ (database_manager : option Database) : RAGKnowledgeBase :=
  {| db := database_manager;
     index := None;
     chunk_metadata := [];
     embedding_dimension := 1536 |}.

(** The object and the files under [knowledge_base/]. *)
Record World : Type := mkWorld {
  self : RAGKnowledgeBase;
  disk : gmap string File
}.

(** A method: it returns or raises, and leaves a world behind either way. *)
Definition M (A : Type) : Type := World -> result A * World.

Definition ret {A : Type} (a : A) : M A := fun w => (Ok a, w).

Definition raise {A : Type} (e : exn) : M A := fun w => (Raise e, w).

Definition bindM {A B : Type} (m : M A) (f : A -> M B) : M B :=
  fun w =>
    match m w with
    | (Ok a, w') => f a w'
    | (Raise e, w') => (Raise e, w')
    end.

Notation "'run' x <- m ; f" := (bindM m (fun x => f))
  (at level 10, x name, m at level 100, f at level 200).

Definition lift {A : Type} (r : result A) : M A := fun w => (r, w).

Definition get_self : M RAGKnowledgeBase := fun w => (Ok (self w), w).

Definition set_self (s : RAGKnowledgeBase) : M unit :=
  fun w => (Ok tt, {| self := s; disk := disk w |}).

Definition read_file (path : string) : M (option File) :=
  fun w => (Ok (disk w !! path), w).

Definition write_file (path : string) (f : File) : M unit :=
  fun w => (Ok tt, {| self := self w; disk := <[path := f]> (disk w) |}).

(** [try: body except Exception: handler]. *)
Definition try_except {A : Type} (body : M A) (handler : M A) : M A :=
  fun w =>
    match body w with
    | (Ok a, w') => (Ok a, w')
    | (Raise _, w') => handler w'
    end.

Definition with_db (s : RAGKnowledgeBase) (d : option Database)
  : RAGKnowledgeBase :=
  {| db := d; index := index s; chunk_metadata := chunk_metadata s;
     embedding_dimension := embedding_dimension s |}.

Definition with_index (s : RAGKnowledgeBase) (ix : option FaissIndex)
  : RAGKnowledgeBase :=
  {| db := db s; index := ix; chunk_metadata := chunk_metadata s;
     embedding_dimension := embedding_dimension s |}.

Definition with_chunk_metadata (s : RAGKnowledgeBase) (chunks : list Chunk)
  : RAGKnowledgeBase :=
  {| db := db s; index := index s; chunk_metadata := chunks;
     embedding_dimension := embedding_dimension s |}.

(** The build summary returned by [create_knowledge_base]; [chunk_types] is
    the list of a set, in no particular order. *)
Record Summary : Type := mkSummary {
  summary_creator_id : Z;
  total_chunks : Z;
  chunk_types : gset string;
  summary_embedding_dimension : Z
}.

(** [f"knowledge_base/creator_{creator_id}"] and the two files in it. *)
Definition kb_dir (creator_id : Z) : string :=
  ("knowledge_base/creator_" ++ pretty creator_id)%string.

Definition index_path (creator_id : Z) : string :=
  (kb_dir creator_id ++ "/faiss_index.bin")%string.

Definition metadata_path (creator_id : Z) : string :=
  (kb_dir creator_id ++ "/chunk_metadata.json")%string.

Section KnowledgeBase.

Context {T : Tokenizer} {Sv : Services}.

(* =================================================================== *)
(** ** Embedder *)
(* =================================================================== *)

(** One turn of the loop of [_generate_embeddings]: the remote service,
    and the sentence model when the remote call raises. *)
Definition embed_batch (batch : list string) : list vector :=
  match openai_embed batch with
  | Some batch_embeddings => batch_embeddings
  | None => sentence_encode batch
  end.

Definition _generate_embeddings (chunks : list Chunk) : result ndarray :=
  let texts := map chunk_text chunks in
  let batch_size := 100 in
  do starts <- py_range (Z.of_nat (List.length texts)) batch_size;
  np_array
    (concat (map (fun i => embed_batch (py_slice texts i (i + batch_size)))
                 starts)).

(* =================================================================== *)
(** ** Vector Index *)
(* =================================================================== *)

Definition _build_faiss_index (embeddings : ndarray) (chunks : list Chunk)
    (creator_id : Z) : M unit :=
  run d <- lift (py_index (shape embeddings) 1);
  run s <- get_self;
  run _ <- set_self (with_index s (Some (IndexFlatIP d)));
  let embeddings :=
    {| shape := shape embeddings;
       rows := map normalize_L2 (rows embeddings) |} in
  run ix <- lift (index_add (IndexFlatIP d) embeddings);
  run s <- get_self;
  run _ <- set_self (with_index s (Some ix));
  run s <- get_self;
  set_self (with_chunk_metadata s chunks).

(* =================================================================== *)
(** ** The relational copy of the chunks *)
(* =================================================================== *)

Definition find_post_id (d : Database) (creator_id : Z)
    (post_id_str : option string) : option Z :=
  match post_id_str with
  | Some str =>
      if PyStr.truthy (Some str)
      then
        match List.filter
                (fun p => match row_post_id p with
                          | Some q => String.eqb q str
                          | None => false
                          end)
                (get_creator_posts d creator_id) with
        | p :: _ => Some (row_id p)
        | [] => None
        end
      else None
  | None => None
  end.

(** The body of the loop of [_save_chunks_to_database]; an exception in
    it (a row of [embeddings] that does not exist) is caught and the chunk
    skipped. *)
Definition save_chunk (creator_id : Z) (embeddings : ndarray)
    (d : Database) (ic : Z * Chunk) : Database :=
  let '(i, chunk) := ic in
  match find_post_id d creator_id (md_post_id (post_metadata chunk)) with
  | None => d
  | Some pid =>
      match py_index (rows embeddings) i with
      | Ok v =>
          add_knowledge_chunk d
            {| kc_creator_id := creator_id;
               kc_post_id := pid;
               kc_chunk_text := chunk_text chunk;
               kc_chunk_type := chunk_type chunk;
               kc_topic_tags := topic_tags chunk;
               kc_embedding_vector := v |}
      | Raise _ => d
      end
  end.

Definition _save_chunks_to_database (creator_id : Z) (chunks : list Chunk)
    (embeddings : ndarray) : M unit :=
  run s <- get_self;
  match db s with
  | None => ret tt
  | Some d =>
      let d := delete_creator_knowledge_chunks d creator_id in
      let d := fold_left (save_chunk creator_id embeddings)
                         (enumerate chunks) d in
      set_self (with_db s (Some d))
  end.

(* =================================================================== *)
(** ** Knowledge Base Store *)
(* =================================================================== *)

Definition _save_knowledge_base (io : fault) (creator_id : Z) : M unit :=
  run _ <- (match io with
            | FailBeforeIndex => raise OSError
            | _ => ret tt
            end);
  run s <- get_self;
  run _ <- (match index s with
            | Some ix => write_file (index_path creator_id) (IndexFile ix)
            | None => raise TypeError
            end);
  run _ <- (match io with
            | FailBeforeMetadata => raise OSError
            | _ => ret tt
            end);
  write_file (metadata_path creator_id) (MetadataFile (chunk_metadata s)).

Definition load_knowledge_base (creator_id : Z) : M bool :=
  try_except
    (run f <- read_file (index_path creator_id);
     run _ <- (match f with
               | Some (IndexFile ix) =>
                   run s <- get_self;
                   set_self (with_index s (Some ix))
               | _ => raise OSError
               end);
     run g <- read_file (metadata_path creator_id);
     run _ <- (match g with
               | Some (MetadataFile chunks) =>
                   run s <- get_self;
                   set_self (with_chunk_metadata s chunks)
               | _ => raise OSError
               end);
     ret true)
    (ret false).

(* =================================================================== *)
(** ** Building a knowledge base *)
(* =================================================================== *)

Definition create_knowledge_base (io : fault) (creator_id : Z)
    (posts : list Post) (coach_profile : CoachProfile) : M Summary :=
  run all_chunks <- lift (_chunk_content_strategically posts coach_profile);
  run embeddings <- lift (_generate_embeddings all_chunks);
  run _ <- _save_chunks_to_database creator_id all_chunks embeddings;
  run _ <- _build_faiss_index embeddings all_chunks creator_id;
  run _ <- _save_knowledge_base io creator_id;
  run s <- get_self;
  ret {| summary_creator_id := creator_id;
         total_chunks := Z.of_nat (List.length all_chunks);
         chunk_types := list_to_set (map chunk_type all_chunks);
         summary_embedding_dimension := embedding_dimension s |}.

(* =================================================================== *)
(** ** Retriever / Search *)
(* =================================================================== *)

(** The loop of [search_knowledge] over [zip(scores[0], indices[0])]. *)
Fixpoint collect_results (metadata : list Chunk) (hits : list (pyfloat * Z))
  : result (list SearchResult) :=
  match hits with
  | [] => Ok []
  | (score, idx) :: hits' =>
      if idx <? Z.of_nat (List.length metadata)
      then
        do chunk <- py_index metadata idx;
        let quality := default PyFloat.f_0_5 (content_quality chunk) in
        let hit :=
          {| sr_chunk := chunk;
             similarity_score := score;
             final_score :=
               PyFloat.add score (PyFloat.mul quality PyFloat.f_0_1) |} in
        do results <- collect_results metadata hits';
        Ok (hit :: results)
      else collect_results metadata hits'
  end.

(** The embedding of the query as an array of one row: by the remote
    service, or by the sentence model when anything in the remote branch
    raises (the [except] clause names no exception). *)
Definition embed_query (query : string) : result ndarray :=
  let fallback :=
    do embedding <- py_index (sentence_encode [query]) 0;
    np_array [embedding] in
  match openai_embed [query] with
  | Some data =>
      match (do embedding <- py_index data 0; np_array [embedding]) with
      | Ok query_embedding => Ok query_embedding
      | Raise _ => fallback
      end
  | None => fallback
  end.

Definition search_knowledge (s : RAGKnowledgeBase) (query : string) (k : Z)
  : result (list SearchResult) :=
  match index s with
  | None => Ok []
  | Some ix =>
      do query_embedding <- embed_query query;
      let query_embedding :=
        {| shape := shape query_embedding;
           rows := map normalize_L2 (rows query_embedding) |} in
      do hits <- faiss_search ix query_embedding k;
      do results <- collect_results (chunk_metadata s) hits;
      Ok (sort_desc final_score results)
  end.

End KnowledgeBase.

(* ===================================================================== *)
(** ** The quality heuristic in the words of its contract *)
(* ===================================================================== *)

(** The four additive bonuses, each [0.0] when its condition fails. *)
Definition length_bonus (text : string) : pyfloat :=
  let words := Z.of_nat (List.length (PyStr.split text)) in
  if (15 <=? words) && (words <=? 150) then PyFloat.f_0_3 else PyFloat.f_0_0.

Definition engagement_bonus (post : Post) : pyfloat :=
  if get_likes post >? 1000 then PyFloat.f_0_4
  else if get_likes post >? 500 then PyFloat.f_0_2
  else PyFloat.f_0_0.

Definition question_bonus (text : string) : pyfloat :=
  if PyStr.contains "?" text then PyFloat.f_0_1 else PyFloat.f_0_0.

Definition advice_bonus (text : string) : pyfloat :=
  if existsb (fun word => PyStr.contains word (PyStr.lower text))
             ["how to"; "tip"; "strategy"; "step"]
  then PyFloat.f_0_2 else PyFloat.f_0_0.

Definition bonus_sum (text : string) (post : Post) : pyfloat :=
  PyFloat.add
    (PyFloat.add
       (PyFloat.add (length_bonus text) (engagement_bonus post))
       (question_bonus text))
    (advice_bonus text).

(* ===================================================================== *)
(** ** Vocabulary of the properties *)
(* ===================================================================== *)

(** What [_chunk_semantically] keeps: chunks tagged with the content type,
    their text trimmed and of at least 20 characters. *)
Definition semantic_chunk (content_type : string) (c : Chunk) : Prop :=
  chunk_type c = ("semantic_" ++ content_type)%string
  /\ topic_tags c = [content_type]
  /\ PyStr.strip (chunk_text c) = chunk_text c
  /\ 20 <= Z.of_nat (String.length (chunk_text c)).


(** [a] may stand before [b] in descending order of the keys. *)
Definition desc {A : Type} (key : A -> pyfloat) (a b : A) : Prop :=
  PyFloat.leb (key b) (key a) = true.

(* ===================================================================== *)
(** ** Sample inputs *)
(* ===================================================================== *)

Definition sample_profile : CoachProfile :=
  {| username := "creator"; platform := "instagram";
     total_posts := 1; transcribed_posts := 0 |}.

(** Scenario A: 1500 likes, a caption of 23 characters, no transcript. *)
Definition scenario_a : Post :=
  {| post_id := Some "post_a"; post_type := Some "image"; post_date := None;
     caption_text := Some "Check this out! #growth"; transcript := None;
     media_url := None; likes := Some 1500; comments := None;
     engagement_rate := None; hashtags := None |}.

(** A post with many likes and a caption of three characters. *)
Definition short_viral_post : Post :=
  {| post_id := Some "post_b"; post_type := Some "image"; post_date := None;
     caption_text := Some "Hi!"; transcript := None;
     media_url := None; likes := Some 1500; comments := None;
     engagement_rate := None; hashtags := None |}.

(** The inner product of two vectors, summed from the last coordinate. *)
Definition dot (q v : vector) : pyfloat :=
  fold_right (fun '(a, b) acc => PyFloat.add (PyFloat.mul a b) acc)
             PyFloat.f_0_0 (combine q v).

(** A vector of 384 coordinates: [x] and then zeros. *)
Definition along_first_axis (x : pyfloat) : vector :=
  x :: repeat PyFloat.f_0_0 383.

(** Services for the examples: the remote service is down, the sentence
    model embeds every text as the first unit vector of 384 coordinates,
    which is already normalised, so that the inner product of a query with
    a stored vector is the first coordinate of the vector. *)
Definition sample_services : Services :=
  {| openai_embed := fun _ => None;
     sentence_encode :=
       fun batch => map (fun _ => along_first_axis PyFloat.f_1_0) batch;
     normalize_L2 := fun v => v;
     inner_product := dot |}.

Definition sample_metadata : PostMetadata :=
  {| md_post_id := Some "post_a"; md_post_type := Some "image";
     md_post_date := None; md_likes := 0; md_comments := 0;
     md_hashtags := []; md_media_url := None |}.

Definition sample_chunk (text : string) (quality : option pyfloat) : Chunk :=
  {| chunk_text := text; chunk_type := "semantic_caption";
     topic_tags := ["caption"]; post_metadata := sample_metadata;
     chunk_index := Some 0; engagement_metrics := None;
     content_quality := quality |}.

(** The floats 0.75 and 0.7. *)
Definition f_0_75 : pyfloat := Eval vm_compute in Prim2SF 0x1.8p-1%float.
Definition f_0_7 : pyfloat :=
  Eval vm_compute in Prim2SF 0x1.6666666666666p-1%float.

(** A knowledge base of two chunks: the first nearer to every query
    (similarity 0.75 against 0.7), the second of higher quality (1.0 against
    0.0). *)
Definition two_chunk_kb : RAGKnowledgeBase :=
  {| db := None;
     index := Some {| index_d := 384;
                      index_xb := [along_first_axis f_0_75;
                                   along_first_axis f_0_7] |};
     chunk_metadata :=
       [sample_chunk "near, plain" (Some PyFloat.f_0_0);
        sample_chunk "far, good" (Some PyFloat.f_1_0)];
     embedding_dimension := 1536 |}.

(** A chunk collection of [n] chunks and an index of [n] vectors. *)
Definition sample_chunks (n : nat) : list Chunk :=
  repeat (sample_chunk "a chunk of the knowledge base" None) n.

Definition sample_index (n : nat) : FaissIndex :=
  {| index_d := 1; index_xb := repeat [f_0_75] n |}.

(** Creator 7 has a knowledge base of two chunks on disk and a rebuilt one
    of three chunks in memory. *)
Definition rebuilt_world : World :=
  {| self := {| db := None;
                index := Some (sample_index 3);
                chunk_metadata := sample_chunks 3;
                embedding_dimension := 1536 |};
     disk := <[metadata_path 7 := MetadataFile (sample_chunks 2)]>
               (<[index_path 7 := IndexFile (sample_index 2)]> ∅) |}.

(** A new process: a fresh object over the files a world left behind. *)
Definition restart (w : World) : World :=
  {| self := __init__ None; disk := disk w |}.

(** A post with many likes, no caption and an empty transcript. *)
Definition contentless_post : Post :=
  {| post_id := Some "post_c"; post_type := Some "image"; post_date := None;
     caption_text := None; transcript := Some "";
     media_url := None; likes := Some 2000; comments := None;
     engagement_rate := None; hashtags := None |}.

(** The world of a process that has just created its object. *)
Definition initial_world : World := {| self := __init__ None; disk := ∅ |}.

(* ===================================================================== *)
(** ** Vocabulary of the further properties *)
(* ===================================================================== *)

(** A chunk that comes from a post: it carries the metadata of the post, and
    its text is the whole transcript or caption ([high_value]) or a trimmed
    fragment of the caption or of the transcript. *)
Definition chunk_from_post {T : Tokenizer} (post : Post) (c : Chunk) : Prop :=
  post_metadata c = _extract_post_metadata post
  /\ ((chunk_type c = "high_value"
       /\ Some (chunk_text c)
          = (if PyStr.truthy (transcript post) then transcript post
             else caption_text post))
      \/ (exists content size fragments fragment,
            (caption_text post = Some content /\ size = 100
             /\ chunk_type c = "semantic_caption"
             \/ transcript post = Some content /\ size = 200
                /\ chunk_type c = "semantic_transcript")
            /\ _chunk_by_tokens content size = Ok fragments
            /\ In fragment fragments
            /\ chunk_text c = PyStr.strip fragment)).

(** A post with 300 likes, a caption of 40 characters and no transcript. *)
Definition quiet_post : Post :=
  {| post_id := Some "post_q"; post_type := Some "image"; post_date := None;
     caption_text := Some "Three habits that changed my mornings.  ";
     transcript := None; media_url := None; likes := Some 300;
     comments := Some 12; engagement_rate := None; hashtags := None |}.

(** The services answer every batch with one vector per text, each of [d]
    coordinates (from the remote service or from the sentence model). *)
Definition embeds_in {Sv : Services} (d : nat) : Prop :=
  forall batch : list string,
    List.length (embed_batch batch) = List.length batch
    /\ Forall (fun v : vector => List.length v = d) (embed_batch batch).

(** The batches of [_generate_embeddings]: the texts by hundreds. *)
Definition batches_of (texts : list string) : list (list string) :=
  map (fun j => firstn 100 (skipn (j * 100) texts))
      (seq 0 (Z.to_nat ((Z.of_nat (List.length texts) + 100 - 1) / 100))).

(** Services whose remote call answers a full batch of 100 texts with
    vectors of three coordinates and raises on any other batch, the sentence
    model giving vectors of two coordinates. *)
Definition mixed_services : Services :=
  {| openai_embed := fun batch =>
       if (List.length batch =? 100)%nat
       then Some (map (fun _ => repeat PyFloat.f_0_0 3) batch) else None;
     sentence_encode := fun batch => map (fun _ => repeat PyFloat.f_0_0 2) batch;
     normalize_L2 := fun v => v;
     inner_product := dot |}.

(* ===================================================================== *)
(** ** The coaches over the knowledge base ([src/coaches/ai_coach.py]) *)
(* ===================================================================== *)

(** An [AICoach].  Its [rag_system] is the object handed to it, and
    [CoachManager] hands every coach its one [self.rag_system]: the object
    [self] of the world. *)
Record AICoach : Type := mkCoach {
  ac_creator_id : Z;
  ac_coach_profile : CoachProfile
}.

(** A [CoachManager]: what [self.db.get_coach_profile] answers for each
    creator, and the dictionary [self.active_coaches]. *)
Record CoachManager : Type := mkManager {
  coach_profiles : gmap Z CoachProfile;
  active_coaches : gmap Z AICoach
}.

(** [CoachManager.load_coach]; the manager it leaves is returned beside the
    coach. *)
Definition load_coach (m : CoachManager) (creator_id : Z)
  : M (option AICoach * CoachManager) :=
  match active_coaches m !! creator_id with
  | Some coach => ret (Some coach, m)
  | None =>
      match coach_profiles m !! creator_id with
      | None => ret (None, m)
      | Some coach_profile =>
          run loaded <- load_knowledge_base creator_id;
          if negb loaded then ret (None, m)
          else
            let coach := {| ac_creator_id := creator_id;
                            ac_coach_profile := coach_profile |} in
            ret (Some coach,
                 {| coach_profiles := coach_profiles m;
                    active_coaches :=
                      <[creator_id := coach]> (active_coaches m) |})
      end
  end.

(** The first step of [AICoach.ask_coach]:
    [self.rag_system.search_knowledge(question, k=context_chunks)]. *)
Definition relevant_chunks {Sv : Services} (coach : AICoach)
    (question : string) (context_chunks : Z) : M (list SearchResult) :=
  run rag_system <- get_self;
  lift (search_knowledge rag_system question context_chunks).

(** A manager that knows the profiles of creators 7 and 8 and has loaded no
    coach. *)
Definition sample_manager : CoachManager :=
  {| coach_profiles := <[8 := sample_profile]> (<[7 := sample_profile]> ∅);
     active_coaches := ∅ |}.

(** Files of creator 7 (two chunks) and of creator 8 (three chunks). *)
Definition two_creator_disk : gmap string File :=
  <[metadata_path 8 := MetadataFile (sample_chunks 3)]>
    (<[index_path 8 := IndexFile (sample_index 3)]>
       (<[metadata_path 7 := MetadataFile (sample_chunks 2)]>
          (<[index_path 7 := IndexFile (sample_index 2)]> ∅))).

(** Files of creator 7, and of creator 8 the index file alone. *)
Definition half_written_disk : gmap string File :=
  <[index_path 8 := IndexFile (sample_index 3)]>
    (<[metadata_path 7 := MetadataFile (sample_chunks 2)]>
       (<[index_path 7 := IndexFile (sample_index 2)]> ∅)).

(* ===================================================================== *)
(** ** Matching a text to an expertise area *)
(* ===================================================================== *)

Fixpoint _match_expertise_area (content : string)
    (expertise_areas : list string) : string :=
  let content_lower := PyStr.lower content in
  match expertise_areas with
  | [] => "general"
  | area :: expertise_areas' =>
      if PyStr.contains (PyStr.lower area) content_lower
      then area
      else _match_expertise_area content expertise_areas'
  end.
(* ===================================================================== *)
(** ** The states of a process *)
(* ===================================================================== *)



(* ===================================================================== *)
(** * Properties *)
(* ===================================================================== *)

Local Open Scope list_scope.

(** ** Quality Scorer *)

(** C3. For every text and every post the quality score is the sum of the
    four bonuses (0.3 for 15 to 150 words; 0.4 for more than 1000 likes,
    else 0.2 for more than 500; 0.1 for a question mark; 0.2 for an advice
    marker) capped at 1.0, and it lies between 0 and 1. *)
Theorem assess_content_quality_range (text : string) (post : Post) :
  _assess_content_quality text post
    = PyFloat.min (bonus_sum text post) PyFloat.f_1_0
  /\ PyFloat.leb PyFloat.f_0_0 (_assess_content_quality text post) = true
  /\ PyFloat.leb (_assess_content_quality text post) PyFloat.f_1_0 = true.
Proof.
  unfold _assess_content_quality, bonus_sum, length_bonus, engagement_bonus,
    question_bonus, advice_bonus.
  destruct ((15 <=? _) && (_ <=? 150));
    destruct (get_likes post >? 1000); destruct (get_likes post >? 500);
    destruct (PyStr.contains "?" text); destruct (existsb _ _);
    vm_compute; auto.
Qed.

(** ** Tokenizer/Chunker *)

Lemma firstn_plus {A : Type} (a b : nat) (l : list A) :
  firstn (a + b) l = (firstn a l ++ firstn b (skipn a l))%list.
Proof.
  revert l; induction a as [|a IH]; intros l; simpl; [reflexivity|].
  destruct l as [|x l]; simpl.
  - now rewrite firstn_nil.
  - now rewrite IH.
Qed.

(** The windows of [n] elements laid side by side are a prefix of the
    list. *)
Lemma concat_windows {A : Type} (n c : nat) (l : list A) :
  concat (map (fun j => firstn n (skipn (j * n) l)) (seq 0 c))
  = firstn (c * n) l.
Proof.
  induction c as [|c IH]; [reflexivity|].
  rewrite seq_S, map_app, concat_app, IH. cbn [map concat Nat.add].
  rewrite app_nil_r.
  replace (Datatypes.S c * n)%nat with (c * n + n)%nat by lia.
  now rewrite firstn_plus.
Qed.

(** The number of windows: enough of them to cover the list, and the last
    one starts inside it. *)
Lemma window_count (len n : Z) :
  0 <= len -> 0 < n ->
  let c := (len + n - 1) / n in
  0 <= c /\ len <= c * n /\ (0 < c -> (c - 1) * n < len).
Proof.
  intros Hlen Hn c.
  pose proof (Z.div_mod (len + n - 1) n ltac:(lia)) as Hdm.
  pose proof (Z.mod_pos_bound (len + n - 1) n Hn) as Hr.
  fold c in Hdm.
  assert (0 <= c) by (apply Z.div_pos; lia).
  nia.
Qed.

Lemma chunk_by_tokens_unfold {T : Tokenizer} (text : string) (n : Z) :
  0 < n ->
  _chunk_by_tokens text n
  = Ok (map decode
          (map (fun j => firstn (Z.to_nat n)
                           (skipn (j * Z.to_nat n) (encode text)))
               (seq 0 (Z.to_nat
                         ((Z.of_nat (List.length (encode text)) + n - 1)
                          / n))))).
Proof.
  intros Hn. unfold _chunk_by_tokens, py_range.
  destruct (Z.eqb_spec n 0) as [->|_]; [lia|].
  destruct (Z.ltb_spec n 0) as [?|_]; [lia|].
  simpl. f_equal. rewrite !map_map.
  apply map_ext; intros j. unfold py_slice. f_equal. f_equal.
  - f_equal. lia.
  - f_equal. lia.
Qed.

Lemma string_length_app (s1 s2 : string) :
  String.length (s1 ++ s2)%string
  = (String.length s1 + String.length s2)%nat.
Proof.
  induction s1 as [|c s1 IH]; [reflexivity|].
  change (Datatypes.S (String.length (s1 ++ s2)%string)
          = Datatypes.S (String.length s1 + String.length s2)%nat).
  now rewrite IH.
Qed.

Lemma string_app_empty_r (s : string) : (s ++ "")%string = s.
Proof.
  induction s as [|c s IH]; [reflexivity|].
  change (String c (s ++ "")%string = String c s). now rewrite IH.
Qed.

Lemma string_app_assoc (s1 s2 s3 : string) :
  ((s1 ++ s2) ++ s3)%string = (s1 ++ (s2 ++ s3))%string.
Proof.
  induction s1 as [|c s1 IH]; [reflexivity|].
  change (String c ((s1 ++ s2) ++ s3)%string
          = String c (s1 ++ (s2 ++ s3))%string).
  now rewrite IH.
Qed.

Lemma concat_empty_snoc (l : list string) (x : string) :
  String.concat "" (l ++ [x]) = (String.concat "" l ++ x)%string.
Proof.
  induction l as [|a l IH]; [reflexivity|].
  destruct l as [|b l]; [reflexivity|].
  change (String.concat "" ((a :: b :: l) ++ [x]))
    with (a ++ (String.concat "" ((b :: l) ++ [x])))%string.
  rewrite IH.
  change (String.concat "" (a :: b :: l))
    with (a ++ String.concat "" (b :: l))%string.
  now rewrite string_app_assoc.
Qed.

(** When every window is a clean cut, the fragments of the first [m]
    windows joined are the decoding of the tokens they cover. *)
Lemma windows_rejoin {T : Tokenizer} (tokens : list token) (n m : nat) :
  decode [] = "" ->
  (forall i, (i < m)%nat ->
     decode (firstn (i * n) tokens ++ firstn n (skipn (i * n) tokens))
     = (decode (firstn (i * n) tokens)
        ++ decode (firstn n (skipn (i * n) tokens)))%string) ->
  String.concat ""
    (map decode (map (fun j => firstn n (skipn (j * n) tokens)) (seq 0 m)))
  = decode (firstn (m * n) tokens).
Proof.
  intros Hnil Hcut. induction m as [|m IH].
  - change (firstn (0 * n) tokens) with (@nil token).
    rewrite Hnil. reflexivity.
  - rewrite seq_S, !map_app. cbn [map Nat.add]. rewrite concat_empty_snoc.
    rewrite IH by (intros i Hi; apply Hcut; lia).
    rewrite <- Hcut by lia.
    replace (Datatypes.S m * n)%nat with (m * n + n)%nat by lia.
    now rewrite firstn_plus.
Qed.

(** C4 (amended). For every text and every window size [n > 0], the
    fragments are the decodings of windows of at most [n] tokens (none
    empty) that laid side by side are the token encoding of the text, the
    window of rank [i] being the [n] tokens from position [i * n]; when
    decoding undoes encoding and every window is a clean cut (decoding the
    tokens before the window followed by the window gives the decoding of
    the tokens before it followed by the decoding of the window), the
    fragments joined in order are the text; and a text with no token gives
    no fragment. *)
Theorem chunk_by_tokens_windows {T : Tokenizer} (text : string) (n : Z) :
  0 < n ->
  exists windows : list (list token),
    _chunk_by_tokens text n = Ok (map decode windows)
    /\ concat windows = encode text
    /\ (forall i w, nth_error windows i = Some w ->
                    w = firstn (Z.to_nat n)
                          (skipn (i * Z.to_nat n) (encode text)))
    /\ Forall (fun w => (0 < List.length w <= Z.to_nat n)%nat) windows
    /\ (decode [] = "" ->
        decode (encode text) = text ->
        (forall i w,
           nth_error windows i = Some w ->
           decode (firstn (i * Z.to_nat n) (encode text) ++ w)
           = (decode (firstn (i * Z.to_nat n) (encode text))
              ++ decode w)%string) ->
        String.concat "" (map decode windows) = text)
    /\ (encode text = [] -> _chunk_by_tokens text n = Ok []).
Proof.
  intros Hn.
  set (tokens := encode text).
  set (c := (Z.of_nat (List.length tokens) + n - 1) / n).
  destruct (window_count (Z.of_nat (List.length tokens)) n ltac:(lia) Hn)
    as (Hc0 & Hcover & Hlast); fold c in Hc0, Hcover, Hlast.
  assert (Hcat :
    concat (map (fun j => firstn (Z.to_nat n) (skipn (j * Z.to_nat n) tokens))
                (seq 0 (Z.to_nat c))) = tokens).
  { rewrite concat_windows. apply firstn_all2. nia. }
  eexists. split; [apply chunk_by_tokens_unfold; assumption|].
  fold tokens c. split; [exact Hcat|]. split; [|split; [|split]].
  - intros i w Hw. rewrite nth_error_map in Hw.
    destruct (nth_error (seq 0 (Z.to_nat c)) i) as [j|] eqn:Hj;
      [|discriminate].
    injection Hw as <-.
    assert (Hi : (i < List.length (seq 0 (Z.to_nat c)))%nat)
      by (apply nth_error_Some; congruence).
    rewrite length_seq in Hi.
    apply (nth_error_nth _ _ 0%nat) in Hj. rewrite seq_nth in Hj by exact Hi.
    now subst j.
  - apply List.Forall_forall. intros w Hw.
    apply in_map_iff in Hw as (j & <- & Hj). apply in_seq in Hj.
    rewrite length_firstn, length_skipn. nia.
  - intros Hnil Hround Hcut.
    rewrite (windows_rejoin tokens (Z.to_nat n) (Z.to_nat c) Hnil).
    + rewrite firstn_all2 by nia. exact Hround.
    + intros i Hi. apply Hcut.
      rewrite nth_error_map, nth_error_seq.
      destruct (Nat.ltb_spec i (Z.to_nat c)) as [_|?]; [reflexivity|lia].
  - intros Hnil. rewrite chunk_by_tokens_unfold by assumption.
    subst c tokens. rewrite Hnil.
    rewrite Z.div_small by (simpl List.length; lia). reflexivity.
Qed.

Lemma char_decode_app (a b : list ascii) :
  string_of_list_ascii (a ++ b)
  = (string_of_list_ascii a ++ string_of_list_ascii b)%string.
Proof.
  induction a as [|x a IH]; [reflexivity|].
  change (String x (string_of_list_ascii (a ++ b))
          = String x (string_of_list_ascii a ++ string_of_list_ascii b)%string).
  now rewrite IH.
Qed.

Lemma chunk_by_tokens_windows_witness :
  0 < 3
  /\ exists windows : list (list (@token char_tokenizer)),
      @_chunk_by_tokens char_tokenizer "abcdefg" 3
      = Ok (map (@decode char_tokenizer) windows)
      /\ String.concat "" (map (@decode char_tokenizer) windows) = "abcdefg".
Proof.
  split; [lia|].
  destruct (@chunk_by_tokens_windows char_tokenizer "abcdefg" 3 ltac:(lia))
    as (windows & H & _ & _ & _ & Hjoin & _).
  exists windows. split; [exact H|].
  apply Hjoin; [reflexivity|reflexivity|].
  intros i w _. apply char_decode_app.
Defined.

Lemma utf8_decode_encode_char (c : ascii) (rest : list ascii) :
  utf8_decode (utf8_encode_char c ++ rest) = String c (utf8_decode rest).
Proof.
  destruct c as [[] [] [] [] [] [] [] []]; reflexivity.
Qed.

Lemma utf8_decode_encode (text : string) :
  utf8_decode (utf8_encode text) = text.
Proof.
  induction text as [|c text IH]; [reflexivity|].
  cbn [utf8_encode]. now rewrite utf8_decode_encode_char, IH.
Qed.

(** C4 (counterexample). Under the byte-level tokenizer decoding undoes
    encoding for every text and decodes no token to the empty text, yet the
    fragments of the one-character text [e_acute] cut by windows of one
    token do not rejoin to it: its two bytes fall in two windows, and each
    decodes to a replacement character. *)
Lemma chunk_by_tokens_split_character :
  (forall text, @decode utf8_tokenizer (@encode utf8_tokenizer text) = text)
  /\ @decode utf8_tokenizer [] = ""
  /\ exists fragments,
       @_chunk_by_tokens utf8_tokenizer e_acute 1 = Ok fragments
       /\ fragments = ["?"; "?"]
       /\ String.concat "" fragments <> e_acute.
Proof.
  split; [exact utf8_decode_encode|]. split; [reflexivity|].
  eexists. split; [vm_compute; reflexivity|].
  split; [reflexivity|]. vm_compute. discriminate.
Qed.

(** ** Chunk Builder *)

Lemma rstrip_idem (s : string) : PyStr.rstrip (PyStr.rstrip s) = PyStr.rstrip s.
Proof.
  induction s as [|c s IH]; [reflexivity|].
  cbn [PyStr.rstrip].
  destruct (PyStr.is_space c && PyStr.is_empty (PyStr.rstrip s)) eqn:E;
    [reflexivity|].
  cbn [PyStr.rstrip]. rewrite IH, E. reflexivity.
Qed.

Lemma lstrip_head (s : string) :
  PyStr.lstrip s = ""
  \/ exists c r, PyStr.lstrip s = String c r /\ PyStr.is_space c = false.
Proof.
  induction s as [|c s IH]; [now left|].
  cbn [PyStr.lstrip]. destruct (PyStr.is_space c) eqn:E; [exact IH|].
  right. now exists c, s.
Qed.

Lemma strip_idem (s : string) : PyStr.strip (PyStr.strip s) = PyStr.strip s.
Proof.
  unfold PyStr.strip.
  destruct (lstrip_head s) as [-> | (c & r & -> & Hc)]; [reflexivity|].
  cbn [PyStr.rstrip]. rewrite Hc. cbn [andb PyStr.lstrip]. rewrite Hc.
  cbn [PyStr.rstrip]. rewrite Hc. cbn [andb].
  now rewrite rstrip_idem.
Qed.

Lemma chunk_semantically_spec {T : Tokenizer} (content : string) (post : Post)
    (content_type : string) :
  exists chunks,
    _chunk_semantically content post content_type = Ok chunks
    /\ Forall (semantic_chunk content_type) chunks.
Proof.
  unfold _chunk_semantically.
  set (chunk_size := if String.eqb content_type "transcript" then 200 else 100).
  assert (Hsize : 0 < chunk_size)
    by (subst chunk_size; destruct (String.eqb _ _); lia).
  rewrite (chunk_by_tokens_unfold content chunk_size Hsize).
  cbn [bind]. eexists. split; [reflexivity|].
  generalize (enumerate
    (map decode
       (map (fun j => firstn (Z.to_nat chunk_size)
                        (skipn (j * Z.to_nat chunk_size) (encode content)))
          (seq 0 (Z.to_nat
                    ((Z.of_nat (List.length (encode content)) + chunk_size - 1)
                     / chunk_size)))))).
  intros l. induction l as [|[i fragment] l IH]; [constructor|].
  cbn [flat_map].
  destruct (Z.ltb_spec (Z.of_nat (String.length (PyStr.strip fragment))) 20)
    as [Hshort|Hlong]; [exact IH|].
  cbn [app]. constructor; [|exact IH].
  unfold semantic_chunk; cbn [chunk_type topic_tags chunk_text].
  repeat split; [apply strip_idem|exact Hlong].
Qed.

Lemma mapM_total {A B : Type} (f : A -> result B) (l : list A) :
  (forall a, exists b, f a = Ok b) ->
  exists bs, mapM f l = Ok bs /\ Forall2 (fun a b => f a = Ok b) l bs.
Proof.
  intros Hf. induction l as [|a l (bs & Hbs & Hall)].
  - exists []. split; [reflexivity|constructor].
  - destruct (Hf a) as (b & Hb). exists (b :: bs).
    cbn [mapM]. rewrite Hb, Hbs. split; [reflexivity|].
    constructor; assumption.
Qed.

Lemma mapM_app {A B : Type} (f : A -> result B) (l1 l2 : list A)
    (b1 b2 : list B) :
  mapM f l1 = Ok b1 -> mapM f l2 = Ok b2 ->
  mapM f (l1 ++ l2) = Ok (b1 ++ b2).
Proof.
  revert b1. induction l1 as [|a l1 IH]; intros b1 H1 H2.
  - cbn in H1. injection H1 as <-. exact H2.
  - cbn [mapM app] in *. destruct (f a) as [b|e]; [|discriminate].
    cbn [bind] in *. destruct (mapM f l1) as [bs|e]; [|discriminate].
    cbn [bind] in *. injection H1 as <-.
    rewrite (IH bs eq_refl H2). reflexivity.
Qed.

Lemma post_chunks_spec {T : Tokenizer} (post : Post) :
  exists caption_chunks transcript_chunks,
    post_chunks post
    = Ok (caption_chunks ++ transcript_chunks ++ engagement_chunks post)
    /\ Forall (semantic_chunk "caption") caption_chunks
    /\ Forall (semantic_chunk "transcript") transcript_chunks.
Proof.
  unfold post_chunks.
  assert (Hc : exists cc,
    match caption_text post with
    | Some caption =>
        if PyStr.truthy (Some caption)
        then _chunk_semantically caption post "caption" else Ok []
    | None => Ok []
    end = Ok cc /\ Forall (semantic_chunk "caption") cc).
  { destruct (caption_text post) as [caption|];
      [destruct (PyStr.truthy (Some caption))|];
      try (exists []; split; [reflexivity|constructor]).
    apply chunk_semantically_spec. }
  assert (Ht : exists tc,
    match transcript post with
    | Some script =>
        if PyStr.truthy (Some script)
        then _chunk_semantically script post "transcript" else Ok []
    | None => Ok []
    end = Ok tc /\ Forall (semantic_chunk "transcript") tc).
  { destruct (transcript post) as [script|];
      [destruct (PyStr.truthy (Some script))|];
      try (exists []; split; [reflexivity|constructor]).
    apply chunk_semantically_spec. }
  destruct Hc as (cc & -> & Hcc), Ht as (tc & -> & Htc).
  exists cc, tc. cbn [bind]. auto.
Qed.

Lemma post_chunks_total {T : Tokenizer} (post : Post) :
  exists chunks, post_chunks post = Ok chunks.
Proof. destruct (post_chunks_spec post) as (cc & tc & H & _). eauto. Qed.

Lemma chunk_content_total {T : Tokenizer} (posts : list Post)
    (profile : CoachProfile) :
  exists per_post,
    mapM post_chunks posts = Ok per_post
    /\ Forall2 (fun post chunks => post_chunks post = Ok chunks) posts per_post
    /\ _chunk_content_strategically posts profile = Ok (concat per_post).
Proof.
  destruct (mapM_total post_chunks posts post_chunks_total)
    as (per_post & Hm & Hall).
  exists per_post. unfold _chunk_content_strategically. rewrite Hm. auto.
Qed.

Lemma chunk_content_app {T : Tokenizer} (l1 l2 : list Post)
    (profile : CoachProfile) (c1 c2 : list Chunk) :
  _chunk_content_strategically l1 profile = Ok c1 ->
  _chunk_content_strategically l2 profile = Ok c2 ->
  _chunk_content_strategically (l1 ++ l2) profile = Ok (c1 ++ c2).
Proof.
  unfold _chunk_content_strategically. intros H1 H2.
  destruct (mapM post_chunks l1) as [p1|] eqn:E1; [|discriminate].
  destruct (mapM post_chunks l2) as [p2|] eqn:E2; [|discriminate].
  cbn [bind] in *. injection H1 as <-. injection H2 as <-.
  rewrite (mapM_app _ _ _ _ _ E1 E2). cbn [bind].
  now rewrite concat_app.
Qed.

Lemma chunk_content_single {T : Tokenizer} (post : Post)
    (profile : CoachProfile) (chunks : list Chunk) :
  post_chunks post = Ok chunks ->
  _chunk_content_strategically [post] profile = Ok chunks.
Proof.
  intros H. unfold _chunk_content_strategically. cbn [mapM]. rewrite H.
  cbn [bind concat]. now rewrite app_nil_r.
Qed.

(** What [_create_high_value_chunk] returns when it returns a chunk. *)
Lemma create_high_value_chunk_spec (post : Post) (c : Chunk) :
  _create_high_value_chunk post = Some c ->
  chunk_type c = "high_value"
  /\ topic_tags c = ["viral"; "high_engagement"]
  /\ content_quality c = Some PyFloat.f_1_0
  /\ Some (chunk_text c)
     = (if PyStr.truthy (transcript post) then transcript post
        else caption_text post).
Proof.
  unfold _create_high_value_chunk, py_or.
  destruct (negb _ && negb _); [discriminate|].
  destruct (if PyStr.truthy (transcript post) then transcript post
            else caption_text post) as [content|] eqn:E; [|discriminate].
  intros [= <-]. cbn. auto.
Qed.

Lemma engagement_chunks_spec (post : Post) :
  Forall (fun c => chunk_type c = "high_value") (engagement_chunks post).
Proof.
  unfold engagement_chunks. destruct (_ || _); [|constructor].
  destruct (_create_high_value_chunk post) as [c|] eqn:E; [|constructor].
  constructor; [|constructor]. now apply create_high_value_chunk_spec in E.
Qed.

Lemma Forall_concat {A : Type} (P : A -> Prop) (ls : list (list A)) :
  Forall (Forall P) ls -> Forall P (concat ls).
Proof.
  induction 1 as [|l ls Hl _ IH]; cbn [concat]; [constructor|].
  apply Forall_app. split; assumption.
Qed.

(** C5 (amended). For every list of posts the builder returns, and each
    chunk it returns is either a [semantic_caption] or [semantic_transcript]
    chunk, whose text is trimmed and has at least 20 characters, or a
    [high_value] chunk, which carries the whole caption or transcript
    whatever its length. *)
Theorem semantic_chunks_min_length {T : Tokenizer} (posts : list Post)
    (profile : CoachProfile) :
  exists chunks,
    _chunk_content_strategically posts profile = Ok chunks
    /\ Forall
         (fun c =>
            ((chunk_type c = "semantic_caption"
              \/ chunk_type c = "semantic_transcript")
             /\ 20 <= Z.of_nat (String.length (PyStr.strip (chunk_text c))))
            \/ chunk_type c = "high_value")
         chunks.
Proof.
  destruct (chunk_content_total posts profile) as (per_post & _ & Hall & ->).
  eexists. split; [reflexivity|].
  apply Forall_concat.
  induction Hall as [|post chunks posts' per_post' Hpost _ IH];
    constructor; [|exact IH].
  destruct (post_chunks_spec post) as (cc & tc & Heq & Hcc & Htc).
  rewrite Heq in Hpost. injection Hpost as <-.
  rewrite !Forall_app. repeat split.
  - eapply List.Forall_impl; [|exact Hcc].
    intros c (Hty & _ & Hstrip & Hlen). left. rewrite Hstrip. auto.
  - eapply List.Forall_impl; [|exact Htc].
    intros c (Hty & _ & Hstrip & Hlen). left. rewrite Hstrip. auto.
  - eapply List.Forall_impl; [|apply engagement_chunks_spec]. cbn. auto.
Qed.

(** C5 (counterexample). A post with 1500 likes and the caption "Hi!": the
    fragment of the caption is dropped, and the builder still returns a
    chunk, of type [high_value], whose trimmed text has 3 characters. *)
Lemma short_high_value_chunk_kept :
  exists c,
    @_chunk_content_strategically char_tokenizer [short_viral_post]
      sample_profile = Ok [c]
    /\ chunk_type c = "high_value"
    /\ chunk_text c = "Hi!"
    /\ Z.of_nat (String.length (PyStr.strip (chunk_text c))) < 20.
Proof. eexists. repeat split. Qed.

(** ** High-value chunks *)

(** C6. A post with more than 1000 likes or an engagement rate above 500
    that has a caption or a transcript contributes, after its semantic
    chunks, exactly one chunk of type [high_value]: its text is the whole
    transcript when there is one and else the whole caption, its tags are
    [viral] and [high_engagement] and its quality is 1.0. In particular a
    post with 1500 likes, the caption "Check this out! #growth" and no
    transcript gives one [semantic_caption] chunk and one [high_value]
    chunk with the caption as text, when the tokenizer encodes the caption
    in 1 to 100 tokens that decode to it. *)
Theorem high_value_chunk_emitted {T : Tokenizer} :
  (forall (before after : list Post) (post : Post) (profile : CoachProfile),
     get_likes post > 1000
     \/ PyFloat.gtb (get_engagement_rate post) PyFloat.f_500 = true ->
     PyStr.truthy (caption_text post) = true
     \/ PyStr.truthy (transcript post) = true ->
     exists chunks_before semantic hv chunks_after,
       _chunk_content_strategically before profile = Ok chunks_before
       /\ _chunk_content_strategically after profile = Ok chunks_after
       /\ _chunk_content_strategically (before ++ post :: after) profile
          = Ok (chunks_before ++ semantic ++ [hv] ++ chunks_after)
       /\ Forall (fun c => chunk_type c = "semantic_caption"
                           \/ chunk_type c = "semantic_transcript") semantic
       /\ chunk_type hv = "high_value"
       /\ Some (chunk_text hv)
          = (if PyStr.truthy (transcript post) then transcript post
             else caption_text post)
       /\ topic_tags hv = ["viral"; "high_engagement"]
       /\ content_quality hv = Some PyFloat.f_1_0)
  /\ (forall (post : Post) (profile : CoachProfile),
        likes post = Some 1500 ->
        caption_text post = Some "Check this out! #growth" ->
        transcript post = None ->
        (0 < List.length (encode "Check this out! #growth") <= 100)%nat ->
        decode (encode "Check this out! #growth") = "Check this out! #growth" ->
        exists sc hv,
          _chunk_content_strategically [post] profile = Ok [sc; hv]
          /\ chunk_type sc = "semantic_caption"
          /\ chunk_text sc = "Check this out! #growth"
          /\ chunk_type hv = "high_value"
          /\ chunk_text hv = "Check this out! #growth").
Proof.
  split.
  - intros before after post profile Htrigger Hcontent.
    destruct (chunk_content_total before profile) as (pb & _ & _ & Hb).
    destruct (chunk_content_total after profile) as (pa & _ & _ & Ha).
    destruct (post_chunks_spec post) as (cc & tc & Hpost & Hcc & Htc).
    assert (Hhv : exists hv, engagement_chunks post = [hv]
                             /\ _create_high_value_chunk post = Some hv).
    { unfold engagement_chunks.
      replace ((get_likes post >? 1000)
               || PyFloat.gtb (get_engagement_rate post) PyFloat.f_500)
        with true.
      2:{ symmetry. apply orb_true_iff.
          destruct Htrigger as [H|H]; [left; lia|right; exact H]. }
      unfold _create_high_value_chunk, py_or.
      replace (negb (PyStr.truthy (caption_text post))
               && negb (PyStr.truthy (transcript post))) with false.
      2:{ symmetry. destruct Hcontent as [-> | ->]; cbn;
          [reflexivity|apply andb_false_r]. }
      destruct (PyStr.truthy (transcript post)) eqn:Et.
      - destruct (transcript post); [eauto|discriminate].
      - destruct Hcontent as [Hc|Hc]; [|discriminate].
        destruct (caption_text post); [eauto|discriminate]. }
    destruct Hhv as (hv & Hhv & Hcreate).
    apply create_high_value_chunk_spec in Hcreate
      as (Hty & Htags & Hq & Htext).
    rewrite Hhv in Hpost.
    exists (concat pb), (cc ++ tc), hv, (concat pa).
    split; [exact Hb|]. split; [exact Ha|]. split.
    { apply chunk_content_app; [exact Hb|].
      change (post :: after) with ([post] ++ after).
      replace ((cc ++ tc) ++ [hv] ++ concat pa)
        with (((cc ++ tc) ++ [hv]) ++ concat pa)
        by (now rewrite <- !app_assoc).
      apply chunk_content_app; [|exact Ha].
      apply chunk_content_single. rewrite Hpost.
      now rewrite <- !app_assoc. }
    split; [|auto].
    apply Forall_app. split.
    + eapply List.Forall_impl; [|exact Hcc]. intros c (H & _). now left.
    + eapply List.Forall_impl; [|exact Htc]. intros c (H & _). now right.
  - intros post profile Hlikes Hcaption Htranscript Hlen Hround.
    set (caption := "Check this out! #growth") in *.
    assert (Hfrag : _chunk_by_tokens caption 100 = Ok [caption]).
    { rewrite chunk_by_tokens_unfold by lia.
      replace ((Z.of_nat (List.length (encode caption)) + 100 - 1) / 100)
        with 1.
      2:{ apply Z.div_unique with
            (r := Z.of_nat (List.length (encode caption)) - 1); lia. }
      change (Z.to_nat 1) with 1%nat. cbn [seq map].
      change (0 * Z.to_nat 100)%nat with 0%nat.
      change (skipn 0 (encode caption)) with (encode caption).
      rewrite firstn_all2 by lia. now rewrite Hround. }
    do 2 eexists. split.
    { apply chunk_content_single.
      unfold post_chunks, engagement_chunks, _create_high_value_chunk, py_or,
        get_likes, _chunk_semantically.
      rewrite Hcaption, Htranscript, Hlikes.
      change (PyStr.truthy (Some caption)) with true.
      change (String.eqb "caption" "transcript") with false.
      cbn iota. rewrite Hfrag. cbn [bind]. reflexivity. }
    repeat split.
Qed.

Lemma high_value_chunk_emitted_witness :
  (get_likes scenario_a > 1000
   \/ PyFloat.gtb (get_engagement_rate scenario_a) PyFloat.f_500 = true)
  /\ (PyStr.truthy (caption_text scenario_a) = true
      \/ PyStr.truthy (transcript scenario_a) = true)
  /\ exists sc hv,
       @_chunk_content_strategically char_tokenizer [scenario_a]
         sample_profile = Ok [sc; hv]
       /\ chunk_type sc = "semantic_caption"
       /\ chunk_text sc = "Check this out! #growth"
       /\ chunk_type hv = "high_value"
       /\ chunk_text hv = "Check this out! #growth".
Proof.
  split; [left; reflexivity|]. split; [left; reflexivity|].
  apply (proj2 (@high_value_chunk_emitted char_tokenizer));
    try reflexivity.
  cbn. lia.
Defined.

(** ** The order of the floats *)

(** [SFcompare] orders the floats that are not NaN by sign, exponent and
    mantissa; the lemmas below are proved by cases on the three floats and
    on the comparisons of their exponents and mantissas. *)
Ltac float_order :=
  unfold PyFloat.ltb, PyFloat.leb, PyFloat.is_nan, SFltb, SFleb, SFeqb,
    SFcompare;
  intros;
  repeat match goal with
         | x : spec_float |- _ => destruct x as [[]|[]| |[] ? ?]
         | x : PyFloat.t |- _ => destruct x as [[]|[]| |[] ? ?]
         end;
  try discriminate; try reflexivity; try (left; reflexivity);
  try (right; reflexivity);
  repeat match goal with
         | H : context [Pos.compare_cont Eq ?a ?b] |- _ =>
             change (Pos.compare_cont Eq a b) with (Pos.compare a b) in H
         | |- context [Pos.compare_cont Eq ?a ?b] =>
             change (Pos.compare_cont Eq a b) with (Pos.compare a b)
         end;
  repeat match goal with
         | H : context [Z.compare ?a ?b] |- _ =>
             destruct (Z.compare_spec a b); try subst
         | |- context [Z.compare ?a ?b] =>
             destruct (Z.compare_spec a b); try subst
         | H : context [Pos.compare ?a ?b] |- _ =>
             destruct (Pos.compare_spec a b); try subst
         | |- context [Pos.compare ?a ?b] =>
             destruct (Pos.compare_spec a b); try subst
         end;
  cbn in *; try discriminate; try reflexivity; try lia;
  try (left; reflexivity); try (right; reflexivity).

Lemma ltb_irrefl (x : pyfloat) : PyFloat.ltb x x = false.
Proof. revert x. float_order. Qed.

Lemma ltb_asym (x y : pyfloat) :
  PyFloat.ltb x y = true -> PyFloat.ltb y x = false.
Proof. revert x y. float_order. Qed.

(** Among floats that are not NaN, [not (x < y)] is [y <= x]. *)
Lemma not_ltb_leb (x y : pyfloat) :
  PyFloat.is_nan x = false -> PyFloat.is_nan y = false ->
  PyFloat.ltb x y = false -> PyFloat.leb y x = true.
Proof. revert x y. float_order. Qed.

Lemma leb_not_ltb (x y : pyfloat) :
  PyFloat.leb y x = true -> PyFloat.ltb x y = false.
Proof. revert x y. float_order. Qed.

Lemma leb_trans (x y z : pyfloat) :
  PyFloat.leb x y = true -> PyFloat.leb y z = true -> PyFloat.leb x z = true.
Proof. revert x y z. float_order. Qed.


Lemma ltb_leb (x y : pyfloat) :
  PyFloat.ltb x y = true -> PyFloat.leb x y = true.
Proof. revert x y. float_order. Qed.

(** ** The stable descending sort *)

Section SortDesc.

Context {A : Type} (key : A -> pyfloat).

Lemma insert_desc_perm (x : A) (l : list A) :
  Permutation (x :: l) (insert_desc key x l).
Proof.
  induction l as [|y l IH]; cbn [insert_desc]; [reflexivity|].
  destruct (PyFloat.ltb (key x) (key y)); [|reflexivity].
  rewrite perm_swap. now apply perm_skip.
Qed.

Lemma sort_desc_perm (l : list A) : Permutation l (sort_desc key l).
Proof.
  induction l as [|x l IH]; cbn [sort_desc]; [reflexivity|].
  rewrite <- insert_desc_perm. now apply perm_skip.
Qed.

Lemma insert_desc_sorted (x : A) (l : list A) :
  PyFloat.is_nan (key x) = false ->
  Forall (fun a => PyFloat.is_nan (key a) = false) l ->
  StronglySorted (desc key) l -> StronglySorted (desc key) (insert_desc key x l).
Proof.
  intros Hx Hl Hs. induction Hs as [|y l Hs IH Hy]; cbn [insert_desc].
  - constructor; constructor.
  - inversion Hl as [|? ? Hny Hnl]; subst.
    destruct (PyFloat.ltb (key x) (key y)) eqn:E.
    + constructor; [now apply IH|].
      eapply Permutation_Forall; [apply insert_desc_perm|].
      constructor; [|exact Hy]. unfold desc. now apply ltb_leb.
    + assert (Hxy : desc key x y) by (unfold desc; now apply not_ltb_leb).
      constructor; [constructor; assumption|].
      constructor; [exact Hxy|].
      eapply List.Forall_impl; [|exact Hy].
      intros z Hz. unfold desc in *. now apply leb_trans with (key y).
Qed.

(** Without NaN among the keys the result is in descending order. *)
Lemma sort_desc_sorted (l : list A) :
  Forall (fun a => PyFloat.is_nan (key a) = false) l ->
  StronglySorted (desc key) (sort_desc key l).
Proof.
  induction 1 as [|x l Hx Hl IH]; cbn [sort_desc]; [constructor|].
  apply insert_desc_sorted; [exact Hx| |exact IH].
  eapply Permutation_Forall; [apply sort_desc_perm|exact Hl].
Qed.



End SortDesc.

(** ** Vector Index *)

Lemma combine_seq_in {A : Type} (l : list A) (a : nat) (s : A) (z : Z) :
  In (s, z) (combine l (map Z.of_nat (seq a (List.length l)))) ->
  exists j, z = Z.of_nat (a + j) /\ nth_error l j = Some s.
Proof.
  revert a. induction l as [|x l IH]; intros a Hin; [destruct Hin|].
  cbn [List.length seq map combine] in Hin. destruct Hin as [[= -> <-]|Hin].
  - exists 0%nat. split; [f_equal; lia|reflexivity].
  - destruct (IH _ Hin) as (j & -> & Hj). exists (Datatypes.S j).
    split; [f_equal; lia|exact Hj].
Qed.

Lemma combine_seq_labels {A : Type} (l : list A) (a : nat) :
  map snd (combine l (map Z.of_nat (seq a (List.length l))))
  = map Z.of_nat (seq a (List.length l)).
Proof.
  revert a. induction l as [|x l IH]; intros a; [reflexivity|].
  cbn [List.length seq map combine snd]. now rewrite IH.
Qed.

Lemma labels_nodup (a n : nat) : List.NoDup (map Z.of_nat (seq a n)).
Proof.
  apply Finite.Injective_map_NoDup; [|apply seq_NoDup].
  intros i j. apply Nat2Z.inj.
Qed.

(** The labels of a search with [0 < k <= ntotal]: [k] hits, no label twice,
    each label the position of a stored vector and each score the inner
    product with that vector. *)
Lemma top_k_hits (sims : list pyfloat) (k : Z) :
  0 < k <= Z.of_nat (List.length sims) ->
  exists hits,
    top_k sims k = hits
    /\ List.length hits = Z.to_nat k
    /\ List.NoDup (map snd hits)
    /\ Forall (fun h => exists j, snd h = Z.of_nat j
                                  /\ nth_error sims j = Some (fst h)) hits.
Proof.
  intros Hk. unfold top_k.
  set (pairs := combine sims (map Z.of_nat (seq 0 (List.length sims)))).
  set (ranked := sort_desc fst pairs).
  assert (Hperm : Permutation pairs ranked) by apply sort_desc_perm.
  assert (Hlen : List.length ranked = List.length sims).
  { rewrite <- (Permutation_length Hperm). unfold pairs.
    rewrite length_combine, length_map, length_seq. lia. }
  assert (Hfound : List.length (firstn (Z.to_nat k) ranked) = Z.to_nat k).
  { rewrite length_firstn. lia. }
  rewrite Hfound, Nat.sub_diag. cbn [repeat]. rewrite app_nil_r.
  eexists. split; [reflexivity|]. split; [exact Hfound|]. split.
  - assert (Hnd : List.NoDup (map snd ranked)).
    { eapply Permutation_NoDup; [apply Permutation_map, Hperm|].
      unfold pairs. rewrite combine_seq_labels. apply labels_nodup. }
    rewrite <- (firstn_skipn (Z.to_nat k) ranked), map_app in Hnd.
    now apply NoDup_app_remove_r in Hnd.
  - apply List.Forall_forall. intros [s z] Hin.
    assert (Hin' : In (s, z) ranked).
    { rewrite <- (firstn_skipn (Z.to_nat k) ranked).
      apply in_or_app. now left. }
    clear Hin. rename Hin' into Hin.
    apply (Permutation_in _ (Permutation_sym Hperm)) in Hin.
    destruct (combine_seq_in _ _ _ _ Hin) as (j & -> & Hj).
    now exists j.
Qed.

(** ** Retriever / Search *)

(** The search result made of one hit. *)
Lemma py_index_nat {A : Type} (l : list A) (j : nat) (a : A) :
  nth_error l j = Some a -> py_index l (Z.of_nat j) = Ok a.
Proof.
  intros H. unfold py_index.
  assert (j < List.length l)%nat by (apply nth_error_Some; congruence).
  destruct (Z.ltb_spec (Z.of_nat j) 0) as [?|_]; [lia|].
  destruct (Z.leb_spec 0 (Z.of_nat j)) as [_|?]; [|lia].
  destruct (Z.ltb_spec (Z.of_nat j) (Z.of_nat (List.length l))) as [_|?];
    [|lia].
  cbn [andb]. now rewrite Nat2Z.id, H.
Qed.

(** Every candidate carries the score of its hit and the final score
    [similarity + quality * 0.1], the quality 0.5 when the chunk has
    none. *)
Lemma collect_results_scores (metadata : list Chunk)
    (hits : list (pyfloat * Z)) (results : list SearchResult) :
  collect_results metadata hits = Ok results ->
  Forall (fun r =>
            final_score r
            = PyFloat.add (similarity_score r)
                (PyFloat.mul
                   (default PyFloat.f_0_5 (content_quality (sr_chunk r)))
                   PyFloat.f_0_1)) results.
Proof.
  revert results. induction hits as [|[score idx] hits IH]; intros results H.
  - injection H as <-. constructor.
  - cbn [collect_results] in H.
    destruct (idx <? Z.of_nat (List.length metadata)); [|now apply IH].
    destruct (py_index metadata idx) as [chunk|]; [|discriminate].
    cbn [bind] in H.
    destruct (collect_results metadata hits) as [rest|]; [|discriminate].
    cbn [bind] in H. injection H as <-.
    constructor; [reflexivity|now apply IH].
Qed.

(** When every label is the position of a chunk, no hit is skipped and no
    lookup fails. *)
Lemma collect_results_valid (metadata : list Chunk)
    (hits : list (pyfloat * Z)) :
  Forall (fun h => exists j, snd h = Z.of_nat j
                             /\ (j < List.length metadata)%nat) hits ->
  exists results,
    collect_results metadata hits = Ok results
    /\ Forall2 (fun h r =>
                  similarity_score r = fst h
                  /\ nth_error metadata (Z.to_nat (snd h))
                     = Some (sr_chunk r)) hits results.
Proof.
  induction 1 as [|[score idx] hits (j & Hj & Hlt) _ (rest & Hrest & Hall)].
  - exists []. split; [reflexivity|constructor].
  - cbn [snd] in Hj. subst idx. cbn [collect_results].
    destruct (Z.ltb_spec (Z.of_nat j) (Z.of_nat (List.length metadata)))
      as [_|?]; [|lia].
    destruct (nth_error metadata j) as [chunk|] eqn:Hc.
    2:{ apply nth_error_None in Hc. lia. }
    rewrite (py_index_nat _ _ _ Hc), Hrest. cbn [bind].
    eexists. split; [reflexivity|].
    constructor; [|exact Hall]. cbn. now rewrite Nat2Z.id.
Qed.



(** The query array has one row, and its shape says so. *)
Lemma embed_query_row {Sv : Services} (query : string) (x : ndarray) :
  embed_query query = Ok x ->
  exists e, x = {| shape := [1; Z.of_nat (List.length e)]; rows := [e] |}.
Proof.
  assert (Hrow : forall e : vector,
             np_array [e]
             = Ok {| shape := [1; Z.of_nat (List.length e)]; rows := [e] |}).
  { intros e. unfold np_array. cbn [forallb]. now rewrite Nat.eqb_refl. }
  unfold embed_query.
  assert (Hfallback :
    (do embedding <- py_index (sentence_encode [query]) 0;
     np_array [embedding]) = Ok x ->
    exists e, x = {| shape := [1; Z.of_nat (List.length e)]; rows := [e] |}).
  { destruct (py_index (sentence_encode [query]) 0) as [e|]; [|discriminate].
    cbn [bind]. rewrite Hrow. intros [= <-]. now exists e. }
  destruct (openai_embed [query]) as [data|]; [|exact Hfallback].
  destruct (py_index data 0) as [e|]; cbn [bind]; [|exact Hfallback].
  rewrite Hrow. intros [= <-]. now exists e.
Qed.

(** A search with a query row of the dimension of the index and [0 < k]
    passes both assertions of the wrapper. *)
Lemma faiss_search_ok {Sv : Services} (ix : FaissIndex) (n : Z) (q : vector)
    (k : Z) :
  0 < k ->
  faiss_search ix {| shape := [n; index_d ix]; rows := [q] |} k
  = Ok (top_k (map (inner_product q) (index_xb ix)) k).
Proof.
  intros Hk. unfold faiss_search. cbn [shape rows].
  rewrite Z.eqb_refl. cbn [negb].
  destruct (Z.leb_spec k 0) as [?|_]; [lia|reflexivity].
Qed.

(** The search of an object that holds an index, for a query embedded as a
    row [e] of the dimension of the index. *)
Lemma search_knowledge_embedded {Sv : Services} (s : RAGKnowledgeBase)
    (ix : FaissIndex) (query : string) (e : vector) (k : Z) :
  index s = Some ix ->
  embed_query query = Ok {| shape := [1; index_d ix]; rows := [e] |} ->
  0 < k ->
  search_knowledge s query k
  = (do results <-
       collect_results (chunk_metadata s)
         (top_k (map (inner_product (normalize_L2 e)) (index_xb ix)) k);
     Ok (sort_desc final_score results)).
Proof.
  intros Hix He Hk. unfold search_knowledge. rewrite Hix, He.
  cbn [bind shape rows map]. rewrite (faiss_search_ok ix 1 _ k Hk).
  reflexivity.
Qed.



(** Without an index the search returns the empty list. *)
Lemma search_unbuilt_empty {Sv : Services} (s : RAGKnowledgeBase)
    (query : string) (k : Z) :
  index s = None -> search_knowledge s query k = Ok [].
Proof. intros H. unfold search_knowledge. now rewrite H. Qed.

(** C1 (counterexample). On the knowledge base of two chunks a search with
    [k = 2] returns the chunk of similarity 0.7 before the chunk of
    similarity 0.75, because its final score is higher; and a search with
    [k = 3] returns three results although the index holds two vectors. *)
Lemma search_order_and_count_counterexample :
  (exists r1 r2,
     @search_knowledge sample_services two_chunk_kb "growth" 2 = Ok [r1; r2]
     /\ PyFloat.ltb (similarity_score r1) (similarity_score r2) = true)
  /\ (exists results,
        @search_knowledge sample_services two_chunk_kb "growth" 3 = Ok results
        /\ List.length (chunk_metadata two_chunk_kb) = 2%nat
        /\ List.length results = 3%nat).
Proof.
  split.
  - do 2 eexists. split; vm_compute; reflexivity.
  - eexists. split; [vm_compute; reflexivity|]. split; reflexivity.
Qed.

(** C1 (amended). When the query is embedded as a row of the dimension of
    the index, the chunk collection is parallel to the index of [m]
    vectors, [0 < k <= m] and no final score is NaN, the search returns
    exactly [k = min(k, m)] results, each the chunk of a distinct position
    of the index, in descending order of final score. *)
Theorem search_knowledge_top_k {Sv : Services} (s : RAGKnowledgeBase)
    (ix : FaissIndex) (query : string) (e : vector) (k : Z) :
  index s = Some ix ->
  embed_query query = Ok {| shape := [1; index_d ix]; rows := [e] |} ->
  List.length (chunk_metadata s) = List.length (index_xb ix) ->
  0 < k <= ntotal ix ->
  (forall j v c,
     nth_error (index_xb ix) j = Some v ->
     nth_error (chunk_metadata s) j = Some c ->
     PyFloat.is_nan
       (PyFloat.add (inner_product (normalize_L2 e) v)
          (PyFloat.mul (default PyFloat.f_0_5 (content_quality c))
             PyFloat.f_0_1)) = false) ->
  exists (results : list SearchResult) (labels : list Z),
    search_knowledge s query k = Ok results
    /\ Z.of_nat (List.length results) = Z.min k (ntotal ix)
    /\ List.NoDup labels
    /\ Forall (fun i => 0 <= i < ntotal ix) labels
    /\ Forall2 (fun i r =>
                  nth_error (chunk_metadata s) (Z.to_nat i)
                  = Some (sr_chunk r)) labels results
    /\ StronglySorted (desc final_score) results.
Proof.
  intros Hix He Hpar Hk Hnan. unfold ntotal in *.
  set (sims := map (inner_product (normalize_L2 e)) (index_xb ix)).
  assert (Hsims : List.length sims = List.length (index_xb ix))
    by apply length_map.
  destruct (top_k_hits sims k ltac:(lia))
    as (hits & Hhits & Hlen & Hnd & Hall).
  destruct (collect_results_valid (chunk_metadata s) hits)
    as (candidates & Hcand & Hpairs).
  { eapply List.Forall_impl; [|exact Hall].
    intros h (j & Hj & Hnth). exists j. split; [exact Hj|].
    assert (j < List.length sims)%nat by (apply nth_error_Some; congruence).
    lia. }
  set (results := sort_desc final_score candidates).
  assert (Hsearch : search_knowledge s query k = Ok results).
  { rewrite (search_knowledge_embedded s ix query e k Hix He ltac:(lia)).
    fold sims. rewrite Hhits, Hcand. reflexivity. }
  pose proof (collect_results_scores _ _ _ Hcand) as Hscores.
  assert (Hperm : Permutation candidates results) by apply sort_desc_perm.
  pose proof (sort_desc_sorted final_score candidates) as Hsorted.
  fold results in Hsorted.
  apply Forall2_flip in Hpairs.
  destruct (Permutation_Forall2 Hperm Hpairs) as (hits' & Hperm' & Hpairs').
  exists results, (map snd hits').
  split; [exact Hsearch|]. split; [|split; [|split; [|split]]].
  - rewrite <- (Permutation_length Hperm).
    rewrite (Forall2_length _ _ _ Hpairs). lia.
  - eapply Permutation_NoDup; [apply Permutation_map, Hperm'|exact Hnd].
  - apply Forall_map.
    eapply Permutation_Forall; [exact Hperm'|].
    eapply List.Forall_impl; [|exact Hall].
    intros h (j & Hj & Hnth).
    assert (j < List.length sims)%nat by (apply nth_error_Some; congruence).
    lia.
  - apply Forall2_fmap_l. apply Forall2_flip.
    eapply Forall2_impl; [exact Hpairs'|]. cbn. intros r h (_ & H). exact H.
  - apply Hsorted.
    assert (Hboth : Forall2
      (fun (r : SearchResult) (h : pyfloat * Z) =>
         PyFloat.is_nan (final_score r) = false) candidates hits).
    { clear - Hpairs Hscores Hall Hnan.
      induction Hpairs as [|r h candidates hits (Hsim & Hchunk) _ IH];
        [constructor|].
      inversion Hscores as [|? ? Hr Hrest]; subst.
      inversion Hall as [|? ? (j & Hj & Hnth) Hall']; subst.
      constructor; [|now apply IH].
      unfold sims in Hnth. rewrite nth_error_map in Hnth.
      destruct (nth_error (index_xb ix) j) as [v|] eqn:Hv; [|discriminate].
      injection Hnth as Hnth.
      rewrite Hj, Nat2Z.id in Hchunk.
      rewrite Hr, Hsim, <- Hnth. now apply (Hnan j). }
    clear - Hboth. induction Hboth; constructor; assumption.
Qed.

Lemma search_knowledge_top_k_witness :
  exists (results : list SearchResult) (labels : list Z),
    @search_knowledge sample_services two_chunk_kb "growth" 2 = Ok results
    /\ Z.of_nat (List.length results) = 2
    /\ List.NoDup labels
    /\ StronglySorted (desc final_score) results.
Proof.
  destruct (@search_knowledge_top_k sample_services two_chunk_kb
              {| index_d := 384;
                 index_xb := [along_first_axis f_0_75;
                              along_first_axis f_0_7] |}
              "growth" (along_first_axis PyFloat.f_1_0) 2 eq_refl)
    as (results & labels & Hsearch & Hlen & Hnd & _ & _ & Hsorted).
  - vm_compute. reflexivity.
  - reflexivity.
  - unfold ntotal. cbn. lia.
  - intros [|[|j]] v c Hv Hc; cbn [nth_error] in Hv, Hc;
      [| |destruct j; discriminate];
      injection Hv as <-; injection Hc as <-; vm_compute; reflexivity.
  - exists results, labels. auto.
Defined.

(** ** Knowledge Base Store *)

Lemma index_path_ne_metadata_path (creator_id : Z) :
  index_path creator_id <> metadata_path creator_id.
Proof.
  unfold index_path, metadata_path. intros H.
  apply (inj (String.app (kb_dir creator_id))) in H. discriminate.
Qed.

(** C8 (counterexample). Creator 7 has a knowledge base of two chunks on
    disk; the save of a rebuilt one of three chunks fails after the index
    file is written. A new process then loads the knowledge base, the load
    returns [True], and the index holds three vectors beside two chunks. *)
Lemma failed_save_leaves_loadable_mismatch :
  exists w1 w2 ix,
    _save_knowledge_base FailBeforeMetadata 7 rebuilt_world
    = (Raise OSError, w1)
    /\ load_knowledge_base 7 (restart w1) = (Ok true, w2)
    /\ index (self w2) = Some ix
    /\ List.length (index_xb ix) = 3%nat
    /\ List.length (chunk_metadata (self w2)) = 2%nat.
Proof.
  do 3 eexists. split; [reflexivity|]. split; [vm_compute; reflexivity|].
  split; [reflexivity|]. split; reflexivity.
Qed.

(** C8 (amended). The save writes the index file and then the metadata
    file. When it completes, a later load by any object returns [True] and
    restores the saved index and the saved chunk collection; when it fails
    before the index file is written, nothing on disk changes; when it fails
    between the two writes and the creator had no metadata file, a later
    load returns [False]. *)
Theorem save_knowledge_base_outcomes (creator_id : Z) (w : World)
    (ix : FaissIndex) (fresh : RAGKnowledgeBase) :
  index (self w) = Some ix ->
  (exists w1 w2,
     _save_knowledge_base NoFault creator_id w = (Ok tt, w1)
     /\ load_knowledge_base creator_id {| self := fresh; disk := disk w1 |}
        = (Ok true, w2)
     /\ index (self w2) = Some ix
     /\ chunk_metadata (self w2) = chunk_metadata (self w))
  /\ _save_knowledge_base FailBeforeIndex creator_id w = (Raise OSError, w)
  /\ (disk w !! metadata_path creator_id = None ->
      exists w1 w2,
        _save_knowledge_base FailBeforeMetadata creator_id w
        = (Raise OSError, w1)
        /\ load_knowledge_base creator_id {| self := fresh; disk := disk w1 |}
           = (Ok false, w2)).
Proof.
  intros Hix.
  pose proof (index_path_ne_metadata_path creator_id) as Hne.
  split; [|split].
  - do 2 eexists. split.
    { unfold _save_knowledge_base, bindM, ret, get_self, write_file.
      rewrite Hix. reflexivity. }
    cbn [disk self].
    unfold load_knowledge_base, try_except, bindM, read_file, get_self,
      set_self, ret. cbn [disk self].
    rewrite lookup_insert_ne by congruence. rewrite lookup_insert_eq.
    cbn [disk self]. rewrite lookup_insert_eq.
    split; [reflexivity|]. split; reflexivity.
  - reflexivity.
  - intros Hnone. do 2 eexists. split.
    { unfold _save_knowledge_base, bindM, ret, get_self, write_file, raise.
      rewrite Hix. reflexivity. }
    cbn [disk self].
    unfold load_knowledge_base, try_except, bindM, read_file, get_self,
      set_self, ret, raise. cbn [disk self].
    rewrite lookup_insert_eq. cbn [disk self].
    rewrite lookup_insert_ne by exact Hne. rewrite Hnone. reflexivity.
Qed.

Lemma save_knowledge_base_outcomes_witness :
  exists w1 w2,
    _save_knowledge_base NoFault 7 rebuilt_world = (Ok tt, w1)
    /\ load_knowledge_base 7 (restart w1) = (Ok true, w2)
    /\ index (self w2) = Some (sample_index 3)
    /\ chunk_metadata (self w2) = sample_chunks 3.
Proof.
  destruct (save_knowledge_base_outcomes 7 rebuilt_world (sample_index 3)
              (__init__ None) eq_refl)
    as ((w1 & w2 & Hsave & Hload & Hindex & Hchunks) & _).
  exists w1, w2. auto.
Defined.

(** ** Building a knowledge base *)

(** C9. A build of Scenario A's post while the remote embedding service is
    down: both chunks are embedded by the sentence model, the index is built
    with dimension 384 over vectors of 384 coordinates, and the summary
    reports [embedding_dimension = 1536]. *)
Theorem fallback_build_reports_1536 :
  exists summary w' ix,
    @create_knowledge_base char_tokenizer sample_services NoFault 7
      [scenario_a] sample_profile initial_world = (Ok summary, w')
    /\ total_chunks summary = 2
    /\ summary_embedding_dimension summary = 1536
    /\ index (self w') = Some ix
    /\ index_d ix = 384
    /\ Forall (fun v => List.length v = 384%nat) (index_xb ix).
Proof.
  do 3 eexists. split; [vm_compute; reflexivity|].
  split; [reflexivity|]. split; [reflexivity|]. split; [reflexivity|].
  split; [reflexivity|]. repeat constructor.
Qed.

Lemma no_content_no_chunks {T : Tokenizer} (post : Post) :
  PyStr.truthy (caption_text post) = false ->
  PyStr.truthy (transcript post) = false ->
  post_chunks post = Ok [].
Proof.
  intros Hc Ht. unfold post_chunks, engagement_chunks,
    _create_high_value_chunk.
  rewrite Hc, Ht. cbn [negb andb].
  destruct (caption_text post) as [caption|];
    [change (PyStr.truthy (Some caption) = false) in Hc; rewrite Hc|];
    (destruct (transcript post) as [script|];
     [change (PyStr.truthy (Some script) = false) in Ht; rewrite Ht|]);
    cbn [bind]; destruct (_ || _); reflexivity.
Qed.

(** C10. A list of posts that all lack a caption and a transcript (the
    empty list among them) yields no chunk; and whenever the posts yield no
    chunk, [create_knowledge_base] raises [IndexError] at [embeddings.shape[1]]
    in [_build_faiss_index], before it assigns an index or writes a file. *)
Theorem zero_chunks_raise {T : Tokenizer} {Sv : Services} (io : fault)
    (creator_id : Z) (posts : list Post) (profile : CoachProfile)
    (w : World) :
  (Forall (fun post => PyStr.truthy (caption_text post) = false
                       /\ PyStr.truthy (transcript post) = false) posts ->
   _chunk_content_strategically posts profile = Ok [])
  /\ (_chunk_content_strategically posts profile = Ok [] ->
      _generate_embeddings [] = Ok {| shape := [0]; rows := [] |}
      /\ fst (_build_faiss_index {| shape := [0]; rows := [] |} [] creator_id w)
         = Raise IndexError
      /\ fst (create_knowledge_base io creator_id posts profile w)
         = Raise IndexError
      /\ index (self (snd (create_knowledge_base io creator_id posts profile w)))
         = index (self w)
      /\ disk (snd (create_knowledge_base io creator_id posts profile w))
         = disk w).
Proof.
  split.
  - intros Hall. unfold _chunk_content_strategically.
    assert (Hm : mapM post_chunks posts = Ok (map (fun _ => []) posts)).
    { induction Hall as [|post posts (Hc & Ht) _ IH]; [reflexivity|].
      cbn [mapM map]. rewrite (no_content_no_chunks post Hc Ht), IH.
      reflexivity. }
    rewrite Hm. cbn [bind]. f_equal.
    clear. induction posts as [|post posts IH]; [reflexivity|exact IH].
  - intros Hzero.
    split; [reflexivity|]. split; [reflexivity|].
    unfold create_knowledge_base, bindM, lift. rewrite Hzero.
    change (_generate_embeddings []) with (Ok {| shape := [0]; rows := [] |}).
    unfold _save_chunks_to_database, bindM, get_self.
    destruct (db (self w)); repeat split; reflexivity.
Qed.

Lemma zero_chunks_raise_witness :
  Forall (fun post => PyStr.truthy (caption_text post) = false
                      /\ PyStr.truthy (transcript post) = false)
         [contentless_post]
  /\ fst (@create_knowledge_base char_tokenizer sample_services NoFault 7
            [contentless_post]
            sample_profile initial_world)
     = Raise IndexError.
Proof.
  assert (H : Forall (fun post => PyStr.truthy (caption_text post) = false
                      /\ PyStr.truthy (transcript post) = false)
         [contentless_post])
    by (repeat constructor).
  split; [exact H|].
  destruct (@zero_chunks_raise char_tokenizer sample_services NoFault 7
              [contentless_post]
              sample_profile initial_world)
    as (Hchunks & Hraise).
  exact (proj1 (proj2 (proj2 (Hraise (Hchunks H))))).
Defined.

(** The summary reports the field [embedding_dimension] as it was before the
    build: no step of the build assigns it. *)
Lemma save_chunks_keeps_dimension {Sv : Services} (creator_id : Z)
    (chunks : list Chunk) (embeddings : ndarray) (w : World) :
  embedding_dimension
    (self (snd (_save_chunks_to_database creator_id chunks embeddings w)))
  = embedding_dimension (self w).
Proof.
  unfold _save_chunks_to_database, bindM, get_self.
  destruct (db (self w)); reflexivity.
Qed.

Lemma build_index_keeps_dimension {Sv : Services} (embeddings : ndarray)
    (chunks : list Chunk) (creator_id : Z) (w : World) :
  embedding_dimension
    (self (snd (_build_faiss_index embeddings chunks creator_id w)))
  = embedding_dimension (self w).
Proof.
  unfold _build_faiss_index, bindM, lift, get_self, set_self.
  destruct (py_index (shape embeddings) 1); [|reflexivity].
  cbn [self]. destruct (index_add _ _); reflexivity.
Qed.

Lemma save_keeps_dimension (io : fault) (creator_id : Z) (w : World) :
  embedding_dimension (self (snd (_save_knowledge_base io creator_id w)))
  = embedding_dimension (self w).
Proof.
  unfold _save_knowledge_base, bindM, get_self, write_file, raise, ret.
  destruct io, (index (self w)); reflexivity.
Qed.

Lemma summary_dimension_is_initial_field {T : Tokenizer} {Sv : Services}
    (io : fault) (creator_id : Z) (posts : list Post) (profile : CoachProfile)
    (w : World) (summary : Summary) :
  fst (create_knowledge_base io creator_id posts profile w) = Ok summary ->
  summary_embedding_dimension summary = embedding_dimension (self w).
Proof.
  unfold create_knowledge_base, bindM, lift.
  destruct (_chunk_content_strategically posts profile) as [chunks|];
    [|discriminate].
  destruct (_generate_embeddings chunks) as [embeddings|]; [|discriminate].
  pose proof (save_chunks_keeps_dimension creator_id chunks embeddings w)
    as H1.
  destruct (_save_chunks_to_database creator_id chunks embeddings w)
    as [[[]|] w1]; [|discriminate].
  pose proof (build_index_keeps_dimension embeddings chunks creator_id w1)
    as H2.
  destruct (_build_faiss_index embeddings chunks creator_id w1)
    as [[[]|] w2]; [|discriminate].
  pose proof (save_keeps_dimension io creator_id w2) as H3.
  destruct (_save_knowledge_base io creator_id w2) as [[[]|] w3];
    [|discriminate].
  cbn in *. intros [= <-]. cbn. congruence.
Qed.

(* ===================================================================== *)
(** * Further properties of the code *)
(* ===================================================================== *)

(** ** Chunk Builder: order, provenance and quality *)

Lemma enumerate_from_in {A : Type} (l : list A) (a : nat) (i : Z) (x : A) :
  In (i, x) (combine (map Z.of_nat (seq a (List.length l))) l) ->
  exists j, i = Z.of_nat (a + j) /\ nth_error l j = Some x.
Proof.
  revert a. induction l as [|y l IH]; intros a Hin; [destruct Hin|].
  cbn [List.length seq map combine] in Hin. destruct Hin as [[= <- ->]|Hin].
  - exists 0%nat. split; [f_equal; lia|reflexivity].
  - destruct (IH _ Hin) as (j & -> & Hj). exists (Datatypes.S j).
    split; [f_equal; lia|exact Hj].
Qed.

(** The quality heuristic stays within [0, 1]. *)
Lemma quality_in_unit_interval (text : string) (post : Post) :
  PyFloat.leb PyFloat.f_0_0 (_assess_content_quality text post) = true
  /\ PyFloat.leb (_assess_content_quality text post) PyFloat.f_1_0 = true.
Proof.
  unfold _assess_content_quality.
  destruct ((15 <=? _) && (_ <=? 150));
    destruct (get_likes post >? 1000); destruct (get_likes post >? 500);
    destruct (PyStr.contains "?" text); destruct (existsb _ _);
    vm_compute; auto.
Qed.

(** Where each semantic chunk comes from: the fragment of rank [i] of the
    content, trimmed, with the quality of the untrimmed fragment and the
    metadata of the post. *)
Lemma chunk_semantically_origin {T : Tokenizer} (content : string)
    (post : Post) (content_type : string) :
  exists fragments chunks,
    _chunk_by_tokens content
      (if String.eqb content_type "transcript" then 200 else 100)
    = Ok fragments
    /\ _chunk_semantically content post content_type = Ok chunks
    /\ Forall
         (fun c =>
            post_metadata c = _extract_post_metadata post
            /\ chunk_type c = ("semantic_" ++ content_type)%string
            /\ exists i fragment,
                 nth_error fragments i = Some fragment
                 /\ chunk_index c = Some (Z.of_nat i)
                 /\ chunk_text c = PyStr.strip fragment
                 /\ content_quality c
                    = Some (_assess_content_quality fragment post))
         chunks.
Proof.
  unfold _chunk_semantically.
  set (chunk_size := if String.eqb content_type "transcript" then 200 else 100).
  assert (Hsize : 0 < chunk_size)
    by (subst chunk_size; destruct (String.eqb _ _); lia).
  rewrite (chunk_by_tokens_unfold content chunk_size Hsize).
  cbn [bind]. do 2 eexists. split; [reflexivity|]. split; [reflexivity|].
  match goal with
  | |- Forall _ (flat_map _ (enumerate ?l)) => generalize l
  end.
  intros fragments. unfold enumerate.
  assert (Hin : forall i x,
            In (i, x) (combine (map Z.of_nat (seq 0 (List.length fragments)))
                         fragments) ->
            exists j, i = Z.of_nat j /\ nth_error fragments j = Some x).
  { intros i x H. destruct (enumerate_from_in _ _ _ _ H) as (j & -> & Hj).
    now exists j. }
  revert Hin.
  generalize (combine (map Z.of_nat (seq 0 (List.length fragments))) fragments).
  intros l Hin. induction l as [|[i fragment] l IH]; [constructor|].
  cbn [flat_map].
  assert (IH' := IH (fun i x H => Hin i x (or_intror H))).
  destruct (Z.of_nat (String.length (PyStr.strip fragment)) <? 20);
    [exact IH'|].
  cbn [app]. constructor; [|exact IH'].
  cbn [post_metadata chunk_index chunk_text content_quality chunk_type].
  split; [reflexivity|]. split; [reflexivity|].
  destruct (Hin i fragment (or_introl eq_refl)) as (j & -> & Hj).
  exists j, fragment. auto.
Qed.

Lemma post_chunks_origin {T : Tokenizer} (post : Post) :
  exists chunks,
    post_chunks post = Ok chunks
    /\ Forall (fun c =>
                 chunk_from_post post c
                 /\ exists q, content_quality c = Some q
                              /\ PyFloat.leb PyFloat.f_0_0 q = true
                              /\ PyFloat.leb q PyFloat.f_1_0 = true) chunks.
Proof.
  unfold post_chunks.
  assert (Hsem : forall content content_type size,
    (caption_text post = Some content /\ size = 100
     /\ content_type = "caption"
     \/ transcript post = Some content /\ size = 200
        /\ content_type = "transcript") ->
    exists chunks,
      _chunk_semantically content post content_type = Ok chunks
      /\ Forall (fun c =>
                   chunk_from_post post c
                   /\ exists q, content_quality c = Some q
                                /\ PyFloat.leb PyFloat.f_0_0 q = true
                                /\ PyFloat.leb q PyFloat.f_1_0 = true) chunks).
  { intros content content_type size Hkind.
    destruct (chunk_semantically_origin content post content_type)
      as (fragments & chunks & Hfrag & Hchunks & Hall).
    exists chunks. split; [exact Hchunks|].
    eapply List.Forall_impl; [|exact Hall].
    intros c (Hmd & Hty & i & fragment & Hnth & _ & Htext & Hq).
    split.
    - split; [exact Hmd|]. right.
      exists content, size, fragments, fragment.
      split; [|split; [|split]].
      + destruct Hkind as [(H1 & H2 & ->)|(H1 & H2 & ->)]; [left|right];
          repeat split; assumption.
      + destruct Hkind as [(_ & -> & ->)|(_ & -> & ->)]; exact Hfrag.
      + eapply nth_error_In, Hnth.
      + exact Htext.
    - eexists. split; [exact Hq|]. apply quality_in_unit_interval. }
  assert (Hcap : exists cc,
    match caption_text post with
    | Some caption =>
        if PyStr.truthy (Some caption)
        then _chunk_semantically caption post "caption" else Ok []
    | None => Ok []
    end = Ok cc
    /\ Forall (fun c =>
                 chunk_from_post post c
                 /\ exists q, content_quality c = Some q
                              /\ PyFloat.leb PyFloat.f_0_0 q = true
                              /\ PyFloat.leb q PyFloat.f_1_0 = true) cc).
  { destruct (caption_text post) as [caption|] eqn:E;
      [destruct (PyStr.truthy (Some caption))|];
      try (exists []; split; [reflexivity|constructor]).
    apply (Hsem caption "caption" 100). left. auto. }
  assert (Htr : exists tc,
    match transcript post with
    | Some script =>
        if PyStr.truthy (Some script)
        then _chunk_semantically script post "transcript" else Ok []
    | None => Ok []
    end = Ok tc
    /\ Forall (fun c =>
                 chunk_from_post post c
                 /\ exists q, content_quality c = Some q
                              /\ PyFloat.leb PyFloat.f_0_0 q = true
                              /\ PyFloat.leb q PyFloat.f_1_0 = true) tc).
  { destruct (transcript post) as [script|] eqn:E;
      [destruct (PyStr.truthy (Some script))|];
      try (exists []; split; [reflexivity|constructor]).
    apply (Hsem script "transcript" 200). right. auto. }
  destruct Hcap as (cc & -> & Hcc), Htr as (tc & -> & Htc).
  cbn [bind]. eexists. split; [reflexivity|].
  rewrite !Forall_app. split; [exact Hcc|]. split; [exact Htc|].
  unfold engagement_chunks. destruct (_ || _); [|constructor].
  destruct (_create_high_value_chunk post) as [hv|] eqn:Ehv; [|constructor].
  constructor; [|constructor].
  pose proof (create_high_value_chunk_spec post hv Ehv)
    as (Hty & _ & Hq & Htext).
  split.
  - split.
    + unfold _create_high_value_chunk in Ehv.
      destruct (negb _ && negb _); [discriminate|].
      destruct (py_or _ _); [|discriminate].
      injection Ehv as <-. reflexivity.
    + left. auto.
  - exists PyFloat.f_1_0. split; [exact Hq|]. split; reflexivity.
Qed.

(** A property of the chunks of each post is a property of every chunk the
    builder returns, for the post it comes from. *)
Lemma chunk_content_forall {T : Tokenizer} (P : Post -> Chunk -> Prop)
    (posts : list Post) (profile : CoachProfile) :
  (forall post, exists chunks,
      post_chunks post = Ok chunks /\ Forall (P post) chunks) ->
  exists chunks,
    _chunk_content_strategically posts profile = Ok chunks
    /\ Forall (fun c => exists post, In post posts /\ P post c) chunks.
Proof.
  intros HP.
  destruct (chunk_content_total posts profile) as (per_post & _ & Hall & ->).
  eexists. split; [reflexivity|]. apply Forall_concat.
  induction Hall as [|post chunks posts' per_post' Hpost _ IH];
    constructor.
  - destruct (HP post) as (chunks' & Heq & Hchunks).
    rewrite Heq in Hpost. injection Hpost as <-.
    eapply List.Forall_impl; [|exact Hchunks].
    intros c Hc. exists post. split; [now left|exact Hc].
  - eapply List.Forall_impl; [|exact IH].
    intros l Hl. eapply List.Forall_impl; [|exact Hl].
    intros c (post' & Hin & Hc). exists post'. split; [now right|exact Hc].
Qed.


(** X2. Every chunk the builder returns comes from one of the posts: it
    carries the metadata of that post, and its text is either the whole
    transcript or caption of the post (a [high_value] chunk) or the trimmed
    decoding of one token window of its caption (windows of 100 tokens) or
    of its transcript (windows of 200 tokens). *)
Theorem chunks_come_from_posts {T : Tokenizer} (posts : list Post)
    (profile : CoachProfile) :
  exists chunks,
    _chunk_content_strategically posts profile = Ok chunks
    /\ Forall (fun c => exists post, In post posts /\ chunk_from_post post c)
         chunks.
Proof.
  apply chunk_content_forall. intros post.
  destruct (post_chunks_origin post) as (chunks & Heq & Hall).
  exists chunks. split; [exact Heq|].
  eapply List.Forall_impl; [|exact Hall]. intros c (H & _). exact H.
Qed.

(** X3. Every chunk the builder returns stores a quality score, and the
    score lies between 0 and 1. *)
Theorem chunks_have_unit_quality {T : Tokenizer} (posts : list Post)
    (profile : CoachProfile) :
  exists chunks,
    _chunk_content_strategically posts profile = Ok chunks
    /\ Forall (fun c => exists q, content_quality c = Some q
                                  /\ PyFloat.leb PyFloat.f_0_0 q = true
                                  /\ PyFloat.leb q PyFloat.f_1_0 = true)
         chunks.
Proof.
  destruct (chunk_content_forall
              (fun _ c => exists q, content_quality c = Some q
                                    /\ PyFloat.leb PyFloat.f_0_0 q = true
                                    /\ PyFloat.leb q PyFloat.f_1_0 = true)
              posts profile) as (chunks & Heq & Hall).
  - intros post. destruct (post_chunks_origin post) as (chunks & Heq & Hall).
    exists chunks. split; [exact Heq|].
    eapply List.Forall_impl; [|exact Hall]. intros c (_ & H). exact H.
  - exists chunks. split; [exact Heq|].
    eapply List.Forall_impl; [|exact Hall]. intros c (_ & _ & H). exact H.
Qed.

(** X4. A post with at most 1000 likes and an engagement rate that is not
    above 500 contributes no [high_value] chunk, whatever its content: all
    its chunks are trimmed fragments of at least 20 characters. *)
Theorem quiet_post_only_semantic_chunks {T : Tokenizer} (post : Post)
    (profile : CoachProfile) :
  get_likes post <= 1000 ->
  PyFloat.gtb (get_engagement_rate post) PyFloat.f_500 = false ->
  exists chunks,
    _chunk_content_strategically [post] profile = Ok chunks
    /\ Forall (fun c =>
                 (chunk_type c = "semantic_caption"
                  \/ chunk_type c = "semantic_transcript")
                 /\ 20 <= Z.of_nat (String.length (chunk_text c))) chunks.
Proof.
  intros Hlikes Hrate.
  destruct (post_chunks_spec post) as (cc & tc & Heq & Hcc & Htc).
  assert (Hnone : engagement_chunks post = []).
  { unfold engagement_chunks. rewrite Hrate.
    destruct (Z.gtb_spec (get_likes post) 1000); [lia|reflexivity]. }
  rewrite Hnone, app_nil_r in Heq.
  exists (cc ++ tc). split; [now apply chunk_content_single|].
  apply Forall_app. split.
  - eapply List.Forall_impl; [|exact Hcc].
    intros c (Hty & _ & _ & Hlen). split; [now left|exact Hlen].
  - eapply List.Forall_impl; [|exact Htc].
    intros c (Hty & _ & _ & Hlen). split; [now right|exact Hlen].
Qed.

Lemma quiet_post_only_semantic_chunks_witness :
  exists chunks,
    @_chunk_content_strategically char_tokenizer [quiet_post] sample_profile
    = Ok chunks
    /\ Forall (fun c =>
                 (chunk_type c = "semantic_caption"
                  \/ chunk_type c = "semantic_transcript")
                 /\ 20 <= Z.of_nat (String.length (chunk_text c))) chunks.
Proof.
  apply (@quiet_post_only_semantic_chunks char_tokenizer quiet_post
           sample_profile).
  - vm_compute. discriminate.
  - reflexivity.
Defined.

(** ** Tokenizer/Chunker: the edges of the window loop *)

(** X5. [_chunk_by_tokens] raises [ValueError] for a window of zero tokens
    (the step of [range]), returns no fragment for a negative window, and
    for a window of [n > 0] tokens returns [ceil(len(tokens) / n)]
    fragments. *)
Theorem chunk_by_tokens_edges {T : Tokenizer} (text : string) (n : Z) :
  (n = 0 -> _chunk_by_tokens text n = Raise ValueError)
  /\ (n < 0 -> _chunk_by_tokens text n = Ok [])
  /\ (0 < n ->
      exists fragments,
        _chunk_by_tokens text n = Ok fragments
        /\ Z.of_nat (List.length fragments)
           = (Z.of_nat (List.length (encode text)) + n - 1) / n).
Proof.
  split; [|split].
  - intros ->. reflexivity.
  - intros Hn. unfold _chunk_by_tokens, py_range.
    destruct (Z.eqb_spec n 0) as [?|_]; [lia|].
    destruct (Z.ltb_spec n 0) as [_|?]; [reflexivity|lia].
  - intros Hn. rewrite chunk_by_tokens_unfold by exact Hn.
    eexists. split; [reflexivity|].
    rewrite !length_map, length_seq.
    apply Z2Nat.id. apply Z.div_pos; lia.
Qed.

Lemma chunk_by_tokens_edges_witness :
  @_chunk_by_tokens char_tokenizer "abcdefg" 0 = Raise ValueError
  /\ @_chunk_by_tokens char_tokenizer "abcdefg" (-2) = Ok []
  /\ exists fragments,
       @_chunk_by_tokens char_tokenizer "abcdefg" 3 = Ok fragments
       /\ Z.of_nat (List.length fragments) = 3.
Proof.
  destruct (@chunk_by_tokens_edges char_tokenizer "abcdefg" 0)
    as (H0 & _ & _).
  destruct (@chunk_by_tokens_edges char_tokenizer "abcdefg" (-2))
    as (_ & Hneg & _).
  destruct (@chunk_by_tokens_edges char_tokenizer "abcdefg" 3)
    as (_ & _ & Hpos).
  split; [exact (H0 eq_refl)|]. split; [apply Hneg; lia|].
  destruct (Hpos ltac:(lia)) as (fragments & Heq & Hlen).
  exists fragments. split; [exact Heq|exact Hlen].
Defined.

(** ** Quality Scorer: engagement *)

(** X6. For a fixed text the quality score does not decrease when the likes
    of the post grow. *)
Theorem quality_monotone_in_likes (text : string) (post1 post2 : Post) :
  get_likes post1 <= get_likes post2 ->
  PyFloat.leb (_assess_content_quality text post1)
              (_assess_content_quality text post2) = true.
Proof.
  intros Hle. unfold _assess_content_quality.
  destruct ((15 <=? _) && (_ <=? 150));
    destruct (PyStr.contains "?" text); destruct (existsb _ _);
    destruct (Z.gtb_spec (get_likes post1) 1000);
    destruct (Z.gtb_spec (get_likes post1) 500);
    destruct (Z.gtb_spec (get_likes post2) 1000);
    destruct (Z.gtb_spec (get_likes post2) 500);
    try lia; vm_compute; reflexivity.
Qed.

Lemma quality_monotone_in_likes_witness :
  PyFloat.leb (_assess_content_quality "How to grow?" quiet_post)
              (_assess_content_quality "How to grow?" scenario_a) = true.
Proof.
  apply quality_monotone_in_likes. vm_compute. discriminate.
Defined.

(** ** Embedder *)

Lemma generate_embeddings_unfold {Sv : Services} (chunks : list Chunk) :
  _generate_embeddings chunks
  = np_array (concat (map embed_batch (batches_of (map chunk_text chunks)))).
Proof.
  unfold _generate_embeddings, py_range, batches_of.
  change (100 =? 0) with false. change (100 <? 0) with false.
  cbn [bind]. f_equal. f_equal. rewrite !map_map.
  apply map_ext; intros j. unfold py_slice. f_equal. f_equal.
  - f_equal. lia.
  - f_equal. lia.
Qed.

Lemma batches_cover (texts : list string) : concat (batches_of texts) = texts.
Proof.
  unfold batches_of.
  destruct (window_count (Z.of_nat (List.length texts)) 100 ltac:(lia)
              ltac:(lia)) as (Hc0 & Hcover & _).
  rewrite (concat_windows 100). apply firstn_all2. lia.
Qed.

Lemma np_array_uniform (embeddings : list vector) (d : nat) :
  embeddings <> [] ->
  Forall (fun v : vector => List.length v = d) embeddings ->
  np_array embeddings
  = Ok {| shape := [Z.of_nat (List.length embeddings); Z.of_nat d];
          rows := embeddings |}.
Proof.
  intros Hne Hall. destruct embeddings as [|v rest]; [congruence|].
  unfold np_array.
  assert (Hv : List.length v = d) by (inversion Hall; assumption).
  destruct (forallb _ _) eqn:E; [now rewrite Hv|].
  exfalso. apply Bool.not_true_iff_false in E. apply E.
  apply forallb_forall. intros w Hw.
  rewrite List.Forall_forall in Hall. rewrite (Hall w Hw), Hv.
  apply Nat.eqb_refl.
Qed.

(** Two rows of different lengths make [np.array] refuse the list. *)
Lemma np_array_ragged (embeddings : list vector) (v w : vector) :
  In v embeddings -> In w embeddings -> List.length v <> List.length w ->
  np_array embeddings = Raise ValueError.
Proof.
  intros Hv Hw Hne. destruct embeddings as [|u rest]; [destruct Hv|].
  unfold np_array.
  destruct (forallb _ _) eqn:E; [|reflexivity].
  rewrite forallb_forall in E.
  pose proof (E v Hv) as H1. pose proof (E w Hw) as H2.
  apply Nat.eqb_eq in H1, H2. congruence.
Qed.

Lemma embedded_rows {Sv : Services} (d : nat) (batches : list (list string)) :
  embeds_in d ->
  List.length (concat (map embed_batch batches))
  = List.length (concat batches)
  /\ Forall (fun v : vector => List.length v = d)
       (concat (map embed_batch batches)).
Proof.
  intros He. induction batches as [|b batches (IHl & IHd)];
    [split; [reflexivity|constructor]|].
  destruct (He b) as (Hl & Hd). cbn [map concat].
  rewrite !length_app, Hl, IHl. split; [reflexivity|].
  apply Forall_app. split; assumption.
Qed.

(** X7. When the services answer every batch with one vector of [d]
    coordinates per text, the embeddings of a non-empty chunk collection
    form an array of shape [(n, d)] with one row per chunk. *)
Theorem generate_embeddings_shape {Sv : Services} (d : nat)
    (chunks : list Chunk) :
  embeds_in d -> chunks <> [] ->
  exists embeddings,
    _generate_embeddings chunks = Ok embeddings
    /\ shape embeddings = [Z.of_nat (List.length chunks); Z.of_nat d]
    /\ List.length (rows embeddings) = List.length chunks.
Proof.
  intros He Hne. rewrite generate_embeddings_unfold.
  destruct (embedded_rows d (batches_of (map chunk_text chunks)) He)
    as (Hlen & Hdim).
  rewrite batches_cover, length_map in Hlen.
  rewrite (np_array_uniform _ d); [|
    intros Hnil; rewrite Hnil in Hlen; destruct chunks;
      [congruence|discriminate] | exact Hdim].
  eexists. split; [reflexivity|]. cbn [shape rows]. rewrite Hlen. auto.
Qed.

Lemma sample_services_embed_in_384 : @embeds_in sample_services 384.
Proof.
  intros batch. unfold embed_batch. cbn [openai_embed sample_services
                                         sentence_encode].
  split; [apply length_map|].
  apply List.Forall_forall. intros v Hv. apply in_map_iff in Hv as (t & <- & _).
  reflexivity.
Qed.

Lemma generate_embeddings_shape_witness :
  exists embeddings,
    @_generate_embeddings sample_services (sample_chunks 3) = Ok embeddings
    /\ shape embeddings = [3; 384].
Proof.
  destruct (@generate_embeddings_shape sample_services 384 (sample_chunks 3)
              sample_services_embed_in_384 ltac:(discriminate))
    as (embeddings & Heq & Hshape & _).
  exists embeddings. split; [exact Heq|exact Hshape].
Defined.

(** X8. When two of the vectors the services return over the batches of a
    build differ in length (a batch embedded remotely and another by the
    fallback model), [_generate_embeddings] raises [ValueError] and returns
    no array. *)
Theorem generate_embeddings_mixed_raises {Sv : Services}
    (chunks : list Chunk) (v w : vector) :
  In v (concat (map embed_batch (batches_of (map chunk_text chunks)))) ->
  In w (concat (map embed_batch (batches_of (map chunk_text chunks)))) ->
  List.length v <> List.length w ->
  _generate_embeddings chunks = Raise ValueError.
Proof.
  intros Hv Hw Hne. rewrite generate_embeddings_unfold.
  now apply np_array_ragged with (v := v) (w := w).
Qed.

Lemma generate_embeddings_mixed_raises_witness :
  @_generate_embeddings mixed_services (sample_chunks 101) = Raise ValueError.
Proof.
  apply (@generate_embeddings_mixed_raises mixed_services (sample_chunks 101)
           [PyFloat.f_0_0; PyFloat.f_0_0; PyFloat.f_0_0]
           [PyFloat.f_0_0; PyFloat.f_0_0]).
  - apply (nth_error_In _ 0). vm_compute. reflexivity.
  - apply (nth_error_In _ 100). vm_compute. reflexivity.
  - cbn. lia.
Defined.

(** ** Knowledge Base Store: paths, loads and round trips *)

Lemma list_ascii_app (s t : string) :
  list_ascii_of_string (s ++ t)%string
  = list_ascii_of_string s ++ list_ascii_of_string t.
Proof.
  induction s as [|c s IH]; [reflexivity|].
  change (c :: list_ascii_of_string (s ++ t)%string
          = c :: (list_ascii_of_string s ++ list_ascii_of_string t)).
  now rewrite IH.
Qed.

Lemma string_app_inv_tail (s1 s2 t : string) :
  (s1 ++ t)%string = (s2 ++ t)%string -> s1 = s2.
Proof.
  intros H. apply (f_equal list_ascii_of_string) in H.
  rewrite !list_ascii_app in H. apply app_inv_tail in H.
  rewrite <- (string_of_list_ascii_of_string s1),
          <- (string_of_list_ascii_of_string s2).
  now rewrite H.
Qed.

(** The files of two creators are different files, and the index file of a
    creator is never the metadata file of a creator. *)
Lemma paths_distinct (c1 c2 : Z) :
  (index_path c1 = index_path c2 -> c1 = c2)
  /\ (metadata_path c1 = metadata_path c2 -> c1 = c2)
  /\ index_path c1 <> metadata_path c2.
Proof.
  unfold index_path, metadata_path, kb_dir. split; [|split].
  - intros H. apply string_app_inv_tail in H.
    apply (inj (String.app "knowledge_base/creator_")) in H.
    now apply (inj pretty) in H.
  - intros H. apply string_app_inv_tail in H.
    apply (inj (String.app "knowledge_base/creator_")) in H.
    now apply (inj pretty) in H.
  - intros H. apply (f_equal list_ascii_of_string) in H.
    rewrite !list_ascii_app in H. apply (f_equal (@rev ascii)) in H.
    rewrite !rev_app_distr in H. cbn in H. discriminate.
Qed.

(** What a load does, by the files it finds. *)
Lemma load_both_files (creator_id : Z) (w : World) (ix : FaissIndex)
    (chunks : list Chunk) :
  disk w !! index_path creator_id = Some (IndexFile ix) ->
  disk w !! metadata_path creator_id = Some (MetadataFile chunks) ->
  load_knowledge_base creator_id w
  = (Ok true,
     {| self := with_chunk_metadata (with_index (self w) (Some ix)) chunks;
        disk := disk w |}).
Proof.
  intros Hi Hm.
  unfold load_knowledge_base, try_except, bindM, read_file, get_self,
    set_self, ret.
  rewrite Hi. cbn [disk self]. rewrite Hm. reflexivity.
Qed.

(** The search reads the index and the chunk collection of the object and
    nothing else. *)
Lemma search_knowledge_ext {Sv : Services} (s1 s2 : RAGKnowledgeBase)
    (query : string) (k : Z) :
  index s1 = index s2 -> chunk_metadata s1 = chunk_metadata s2 ->
  search_knowledge s1 query k = search_knowledge s2 query k.
Proof. intros Hi Hm. unfold search_knowledge. now rewrite Hi, Hm. Qed.

(** X9. A load that finds no index file for the creator returns [False] and
    leaves the object as it was; a load that finds the index file and no
    metadata file also returns [False], and has by then replaced the index
    of the object while its chunk collection is the old one. *)
Theorem load_failure_modes (creator_id : Z) (w : World) :
  (disk w !! index_path creator_id = None ->
   load_knowledge_base creator_id w = (Ok false, w))
  /\ (forall ix,
        disk w !! index_path creator_id = Some (IndexFile ix) ->
        disk w !! metadata_path creator_id = None ->
        load_knowledge_base creator_id w
        = (Ok false,
           {| self := with_index (self w) (Some ix); disk := disk w |})).
Proof.
  split.
  - intros Hi.
    unfold load_knowledge_base, try_except, bindM, read_file, raise, ret.
    rewrite Hi. destruct w. reflexivity.
  - intros ix Hi Hm.
    unfold load_knowledge_base, try_except, bindM, read_file, get_self,
      set_self, raise, ret.
    rewrite Hi. cbn [disk self]. rewrite Hm. reflexivity.
Qed.

Lemma load_failure_modes_witness :
  load_knowledge_base 7 initial_world = (Ok false, initial_world)
  /\ exists w',
       load_knowledge_base 7
         {| self := __init__ None;
            disk := <[index_path 7 := IndexFile (sample_index 3)]> ∅ |}
       = (Ok false, w')
       /\ index (self w') = Some (sample_index 3)
       /\ chunk_metadata (self w') = [].
Proof.
  destruct (load_failure_modes 7 initial_world) as (Hnone & _).
  destruct (load_failure_modes 7
              {| self := __init__ None;
                 disk := <[index_path 7 := IndexFile (sample_index 3)]> ∅ |})
    as (_ & Hpartial).
  split; [apply Hnone; reflexivity|].
  eexists. split; [apply Hpartial; vm_compute; reflexivity|].
  split; reflexivity.
Defined.

(** X10. A save, complete or failed, writes no file of another creator. *)
Theorem save_keeps_other_creators (io : fault) (creator_id other : Z)
    (w : World) :
  other <> creator_id ->
  disk (snd (_save_knowledge_base io creator_id w)) !! index_path other
  = disk w !! index_path other
  /\ disk (snd (_save_knowledge_base io creator_id w)) !! metadata_path other
     = disk w !! metadata_path other.
Proof.
  intros Hne.
  destruct (paths_distinct other creator_id) as (Hi & Hm & Him).
  destruct (paths_distinct creator_id other) as (_ & _ & Hmi).
  unfold _save_knowledge_base, bindM, ret, raise, get_self, write_file.
  destruct io, (index (self w)); cbn [snd disk self];
    rewrite ?lookup_insert_ne by (intros H; auto; symmetry in H; auto);
    split; reflexivity.
Qed.

Lemma save_keeps_other_creators_witness :
  disk (snd (_save_knowledge_base NoFault 8 rebuilt_world)) !! index_path 7
  = Some (IndexFile (sample_index 2))
  /\ disk (snd (_save_knowledge_base NoFault 8 rebuilt_world))
       !! metadata_path 7
     = Some (MetadataFile (sample_chunks 2)).
Proof.
  destruct (save_keeps_other_creators NoFault 8 7 rebuilt_world
              ltac:(discriminate)) as (Hi & Hm).
  split.
  - rewrite Hi. vm_compute. reflexivity.
  - rewrite Hm. vm_compute. reflexivity.
Defined.

(** ** Building a knowledge base: what a successful build leaves behind *)

Lemma generate_embeddings_ok {Sv : Services} (d : nat) (chunks : list Chunk) :
  embeds_in d -> chunks <> [] ->
  exists vectors,
    _generate_embeddings chunks
    = Ok {| shape := [Z.of_nat (List.length chunks); Z.of_nat d];
            rows := vectors |}
    /\ List.length vectors = List.length chunks.
Proof.
  intros He Hne. rewrite generate_embeddings_unfold.
  destruct (embedded_rows d (batches_of (map chunk_text chunks)) He)
    as (Hlen & Hdim).
  rewrite batches_cover, length_map in Hlen.
  rewrite (np_array_uniform _ d); [|
    intros Hnil; rewrite Hnil in Hlen; destruct chunks;
      [congruence|discriminate] | exact Hdim].
  eexists. split; [rewrite Hlen; reflexivity|exact Hlen].
Qed.

Lemma save_chunks_to_database_world {T : Tokenizer} {Sv : Services}
    (creator_id : Z) (chunks : list Chunk) (embeddings : ndarray) (w : World) :
  exists d,
    _save_chunks_to_database creator_id chunks embeddings w
    = (Ok tt, {| self := with_db (self w) d; disk := disk w |}).
Proof.
  unfold _save_chunks_to_database, bindM, get_self, set_self, ret.
  destruct (db (self w)) eqn:E.
  - eexists. reflexivity.
  - exists None. destruct w as [[? ? ? ?] ?]. cbn in E. subst. reflexivity.
Qed.

Lemma create_knowledge_base_ok {T : Tokenizer} {Sv : Services} (d : nat)
    (creator_id : Z) (posts : list Post) (coach_profile : CoachProfile)
    (chunks : list Chunk) (w : World) :
  embeds_in d ->
  _chunk_content_strategically posts coach_profile = Ok chunks ->
  chunks <> [] ->
  exists vectors database,
    List.length vectors = List.length chunks
    /\ create_knowledge_base NoFault creator_id posts coach_profile w
       = (Ok {| summary_creator_id := creator_id;
                total_chunks := Z.of_nat (List.length chunks);
                chunk_types := list_to_set (map chunk_type chunks);
                summary_embedding_dimension := embedding_dimension (self w) |},
          {| self :=
               {| db := database;
                  index := Some {| index_d := Z.of_nat d;
                                   index_xb := vectors |};
                  chunk_metadata := chunks;
                  embedding_dimension := embedding_dimension (self w) |};
             disk :=
               <[metadata_path creator_id := MetadataFile chunks]>
                 (<[index_path creator_id :=
                      IndexFile {| index_d := Z.of_nat d;
                                   index_xb := vectors |}]> (disk w)) |}).
Proof.
  intros He Hc Hne.
  destruct (generate_embeddings_ok d chunks He Hne) as (vectors & Hg & Hl).
  destruct (save_chunks_to_database_world creator_id chunks
              {| shape := [Z.of_nat (List.length chunks); Z.of_nat d];
                 rows := vectors |} w) as (database & Hs).
  exists (map normalize_L2 vectors), database.
  split; [now rewrite length_map|].
  unfold create_knowledge_base.
  unfold bindM at 1. unfold lift at 1. rewrite Hc.
  unfold bindM at 1. unfold lift at 1. rewrite Hg.
  unfold bindM at 1. rewrite Hs.
  unfold _build_faiss_index, _save_knowledge_base, index_add, IndexFlatIP,
    bindM, lift, get_self, set_self, write_file, ret, with_index,
    with_chunk_metadata, with_db.
  cbn [shape rows index_d index_xb self disk index chunk_metadata db
       embedding_dimension].
  change (py_index [Z.of_nat (List.length chunks); Z.of_nat d] 1)
    with (@Ok Z (Z.of_nat d)).
  cbn [index_d index_xb self disk index chunk_metadata db
       embedding_dimension shape rows].
  rewrite Z.eqb_refl.
  cbn [index_d index_xb self disk index chunk_metadata db
       embedding_dimension app].
  reflexivity.
Qed.

(** X11. When the services embed in [d] coordinates and the posts give at
    least one chunk, the build succeeds and leaves an index of dimension [d]
    holding one vector per chunk beside the chunks themselves, in the same
    number as the summary reports, and both files of the creator hold
    exactly that index and that chunk collection. *)
Theorem build_gives_parallel_arrays {T : Tokenizer} {Sv : Services} (d : nat)
    (creator_id : Z) (posts : list Post) (coach_profile : CoachProfile)
    (chunks : list Chunk) (w : World) :
  embeds_in d ->
  _chunk_content_strategically posts coach_profile = Ok chunks ->
  chunks <> [] ->
  exists summary ix w',
    create_knowledge_base NoFault creator_id posts coach_profile w
    = (Ok summary, w')
    /\ index (self w') = Some ix
    /\ chunk_metadata (self w') = chunks
    /\ index_d ix = Z.of_nat d
    /\ ntotal ix = Z.of_nat (List.length chunks)
    /\ total_chunks summary = ntotal ix
    /\ disk w' !! index_path creator_id = Some (IndexFile ix)
    /\ disk w' !! metadata_path creator_id = Some (MetadataFile chunks).
Proof.
  intros He Hc Hne.
  destruct (create_knowledge_base_ok d creator_id posts coach_profile chunks
              w He Hc Hne) as (vectors & database & Hl & Hb).
  do 3 eexists. split; [exact Hb|].
  cbn [self index chunk_metadata disk total_chunks].
  split; [reflexivity|].
  unfold ntotal. cbn [index_d index_xb]. rewrite Hl.
  repeat split.
  - rewrite lookup_insert_ne
      by (apply (proj2 (proj2 (paths_distinct creator_id creator_id)))
          || (intros H; symmetry in H; revert H;
              apply (proj2 (proj2 (paths_distinct creator_id creator_id))))).
    apply lookup_insert_eq.
  - apply lookup_insert_eq.
Qed.

Lemma build_gives_parallel_arrays_witness :
  exists summary ix w',
    @create_knowledge_base char_tokenizer sample_services NoFault 7
      [quiet_post] sample_profile initial_world = (Ok summary, w')
    /\ index (self w') = Some ix
    /\ index_d ix = 384
    /\ ntotal ix = 1
    /\ total_chunks summary = 1.
Proof.
  pose proof (fun chunks =>
                @build_gives_parallel_arrays char_tokenizer sample_services
                  384 7 [quiet_post] sample_profile chunks initial_world
                  sample_services_embed_in_384) as H.
  edestruct H
    as (summary & ix & w' & Hb & Hi & Hm & Hd & Hn & Ht & _);
    [vm_compute; reflexivity | discriminate |].
  exists summary, ix, w'. rewrite Ht, Hn. repeat split; assumption.
Defined.

(** X12. After a successful build, a fresh object that loads the creator's
    knowledge base from the files holds the index and the chunks the
    builder holds, and answers every search as the builder does. *)
Theorem build_then_load_round_trip {T : Tokenizer} {Sv : Services} (d : nat)
    (creator_id : Z) (posts : list Post) (coach_profile : CoachProfile)
    (chunks : list Chunk) (w : World) :
  embeds_in d ->
  _chunk_content_strategically posts coach_profile = Ok chunks ->
  chunks <> [] ->
  exists summary w' w'',
    create_knowledge_base NoFault creator_id posts coach_profile w
    = (Ok summary, w')
    /\ load_knowledge_base creator_id (restart w') = (Ok true, w'')
    /\ index (self w'') = index (self w')
    /\ chunk_metadata (self w'') = chunk_metadata (self w')
    /\ forall query k,
         search_knowledge (self w'') query k
         = search_knowledge (self w') query k.
Proof.
  intros He Hc Hne.
  destruct (create_knowledge_base_ok d creator_id posts coach_profile chunks
              w He Hc Hne) as (vectors & database & Hl & Hb).
  do 3 eexists. split; [exact Hb|].
  split.
  - apply load_both_files; unfold restart; cbn [disk].
    + rewrite lookup_insert_ne; [apply lookup_insert_eq|].
      intros H. symmetry in H. revert H.
      apply (proj2 (proj2 (paths_distinct creator_id creator_id))).
    + apply lookup_insert_eq.
  - cbn [self index chunk_metadata with_index with_chunk_metadata].
    split; [reflexivity|]. split; [reflexivity|].
    intros query k. apply search_knowledge_ext; reflexivity.
Qed.

Lemma build_then_load_round_trip_witness :
  exists summary w' w'',
    @create_knowledge_base char_tokenizer sample_services NoFault 7
      [quiet_post] sample_profile initial_world = (Ok summary, w')
    /\ load_knowledge_base 7 (restart w') = (Ok true, w'')
    /\ forall query k,
         @search_knowledge sample_services (self w'') query k
         = @search_knowledge sample_services (self w') query k.
Proof.
  pose proof (fun chunks =>
                @build_then_load_round_trip char_tokenizer sample_services
                  384 7 [quiet_post] sample_profile chunks initial_world
                  sample_services_embed_in_384) as H.
  edestruct H
    as (summary & w' & w'' & Hb & Hload & _ & _ & Hs);
    [vm_compute; reflexivity | discriminate |].
  exists summary, w', w''. repeat split; assumption.
Defined.

(** ** Retriever / Search: every outcome of a search *)

(** The hits of a search with [0 < k]: the best [min(k, ntotal)] labels of
    the index, then [k - ntotal] entries of label [-1]. *)
Lemma top_k_split (sims : list pyfloat) (k : Z) :
  0 < k ->
  exists found,
    top_k sims k
    = (found ++ repeat (PyFloat.neg_flt_max, -1)
                  (Z.to_nat k - List.length sims))
    /\ List.length found = Nat.min (Z.to_nat k) (List.length sims)
    /\ Forall (fun h => exists j, snd h = Z.of_nat j
                                  /\ nth_error sims j = Some (fst h)) found.
Proof.
  intros Hk. unfold top_k.
  set (pairs := combine sims (map Z.of_nat (seq 0 (List.length sims)))).
  set (ranked := sort_desc fst pairs).
  assert (Hperm : Permutation pairs ranked) by apply sort_desc_perm.
  assert (Hlen : List.length ranked = List.length sims).
  { rewrite <- (Permutation_length Hperm). unfold pairs.
    rewrite length_combine, length_map, length_seq. lia. }
  assert (Hfound : List.length (firstn (Z.to_nat k) ranked)
                   = Nat.min (Z.to_nat k) (List.length sims)).
  { rewrite length_firstn. lia. }
  exists (firstn (Z.to_nat k) ranked). split; [|split; [exact Hfound|]].
  - rewrite Hfound. do 2 f_equal. lia.
  - apply List.Forall_forall. intros [s z] Hin.
    assert (Hin' : In (s, z) ranked).
    { rewrite <- (firstn_skipn (Z.to_nat k) ranked).
      apply in_or_app. now left. }
    apply (Permutation_in _ (Permutation_sym Hperm)) in Hin'.
    destruct (combine_seq_in _ _ _ _ Hin') as (j & -> & Hj).
    now exists j.
Qed.

Lemma collect_results_app (metadata : list Chunk)
    (hits1 hits2 : list (pyfloat * Z)) :
  collect_results metadata (hits1 ++ hits2)
  = (do results1 <- collect_results metadata hits1;
     do results2 <- collect_results metadata hits2;
     Ok (results1 ++ results2)).
Proof.
  induction hits1 as [|[score idx] hits1 IH].
  - cbn [app collect_results bind].
    destruct (collect_results metadata hits2); reflexivity.
  - cbn [app collect_results].
    destruct (idx <? Z.of_nat (List.length metadata)); [|exact IH].
    destruct (py_index metadata idx) as [chunk|]; [|reflexivity].
    cbn [bind]. rewrite IH.
    destruct (collect_results metadata hits1) as [r1|]; [|reflexivity].
    cbn [bind].
    destruct (collect_results metadata hits2) as [r2|]; reflexivity.
Qed.

Lemma py_index_in {A : Type} (l : list A) (i : Z) (a : A) :
  py_index l i = Ok a -> In a l.
Proof.
  unfold py_index. destruct (_ && _); [|discriminate].
  destruct (nth_error l _) as [b|] eqn:E; [|discriminate].
  intros [= <-]. eapply nth_error_In, E.
Qed.

(** [l[-1]] is the last element of a list that has one. *)
Lemma py_index_last {A : Type} (l : list A) (a : A) :
  py_index (l ++ [a]) (-1) = Ok a.
Proof.
  unfold py_index. rewrite length_app. cbn [List.length].
  change (-1 <? 0) with true. cbv iota.
  destruct (Z.leb_spec 0 (-1 + Z.of_nat (List.length l + 1))) as [_|?];
    [|lia].
  destruct (Z.ltb_spec (-1 + Z.of_nat (List.length l + 1))
              (Z.of_nat (List.length l + 1))) as [_|?]; [|lia].
  cbn [andb].
  replace (Z.to_nat (-1 + Z.of_nat (List.length l + 1)))
    with (List.length l) by lia.
  now rewrite nth_error_app2, Nat.sub_diag by lia.
Qed.

(** Whatever the labels, the candidates are chunks of the collection, at
    most one per hit. *)
Lemma collect_results_members (metadata : list Chunk)
    (hits : list (pyfloat * Z)) (results : list SearchResult) :
  collect_results metadata hits = Ok results ->
  (List.length results <= List.length hits)%nat
  /\ Forall (fun r => In (sr_chunk r) metadata) results.
Proof.
  revert results. induction hits as [|[score idx] hits IH]; intros results H.
  - injection H as <-. split; [reflexivity|constructor].
  - cbn [collect_results] in H.
    destruct (idx <? Z.of_nat (List.length metadata)).
    2:{ destruct (IH _ H). split; [cbn [List.length]; lia|assumption]. }
    destruct (py_index metadata idx) as [chunk|] eqn:Hc; [|discriminate].
    cbn [bind] in H.
    destruct (collect_results metadata hits) as [rest|]; [|discriminate].
    cbn [bind] in H. injection H as <-.
    destruct (IH _ eq_refl). split; [cbn [List.length]; lia|].
    constructor; [exact (py_index_in _ _ _ Hc)|assumption].
Qed.

(** Hits whose labels are positions at or past the end of the collection
    are all skipped. *)
Lemma collect_results_skip (metadata : list Chunk)
    (hits : list (pyfloat * Z)) :
  Forall (fun h => Z.of_nat (List.length metadata) <= snd h) hits ->
  collect_results metadata hits = Ok [].
Proof.
  induction 1 as [|[score idx] hits Hh _ IH]; [reflexivity|].
  cbn [collect_results]. cbn [snd] in Hh.
  destruct (Z.ltb_spec idx (Z.of_nat (List.length metadata))); [lia|exact IH].
Qed.

(** Over a collection that has a chunk, labels from [-1] up never make the
    loop fail. *)
Lemma collect_results_total (metadata : list Chunk)
    (hits : list (pyfloat * Z)) :
  metadata <> [] ->
  Forall (fun h => -1 <= snd h) hits ->
  exists results, collect_results metadata hits = Ok results.
Proof.
  intros Hne. induction 1 as [|[score idx] hits Hh _ (rest & IH)].
  - now exists [].
  - cbn [collect_results]. cbn [snd] in Hh.
    destruct (Z.ltb_spec idx (Z.of_nat (List.length metadata))) as [Hlt|_];
      [|now exists rest].
    assert (Hc : exists chunk, py_index metadata idx = Ok chunk).
    { destruct (Z.eq_dec idx (-1)) as [->|Hn].
      - destruct (exists_last Hne) as (l & a & ->).
        exists a. apply py_index_last.
      - destruct (nth_error metadata (Z.to_nat idx)) as [c|] eqn:E.
        + exists c. replace idx with (Z.of_nat (Z.to_nat idx)) by lia.
          now apply py_index_nat.
        + apply nth_error_None in E. lia. }
    destruct Hc as (chunk & ->). rewrite IH. cbn [bind]. eauto.
Qed.

(** The padding of the hits over a collection that has a chunk: each
    padding entry becomes a result that carries the last chunk. *)
Lemma collect_results_padding (metadata : list Chunk) (last : Chunk)
    (n : nat) :
  exists results,
    collect_results (metadata ++ [last])
      (repeat (PyFloat.neg_flt_max, -1) n) = Ok results
    /\ List.length results = n
    /\ Forall (fun r => sr_chunk r = last
                        /\ similarity_score r = PyFloat.neg_flt_max) results.
Proof.
  induction n as [|n (rest & IH & Hl & Hall)].
  - exists []. split; [reflexivity|]. split; [reflexivity|constructor].
  - cbn [repeat collect_results].
    destruct (Z.ltb_spec (-1) (Z.of_nat (List.length (metadata ++ [last]))))
      as [_|?]; [|lia].
    rewrite py_index_last, IH. cbn [bind].
    eexists. split; [reflexivity|]. split; [cbn [List.length]; now rewrite Hl|].
    constructor; [split; reflexivity|exact Hall].
Qed.

(** X13. Every outcome of a search whose query is embedded in the
    dimension of the index.  Without an index it returns the empty list.
    With an index it raises [AssertionError] when [k <= 0]; raises
    [IndexError] when the chunk collection is empty and [k] exceeds the
    number of vectors; and otherwise returns at most [k] results, each
    carrying a chunk of the collection.  A query embedded in another
    dimension than the index raises [AssertionError]. *)
Theorem search_outcomes {Sv : Services} (s : RAGKnowledgeBase)
    (query : string) (k : Z) :
  (index s = None -> search_knowledge s query k = Ok [])
  /\ (forall ix e,
        index s = Some ix ->
        embed_query query = Ok {| shape := [1; index_d ix]; rows := [e] |} ->
        (k <= 0 -> search_knowledge s query k = Raise AssertionError)
        /\ (0 < k -> chunk_metadata s = [] -> ntotal ix < k ->
            search_knowledge s query k = Raise IndexError)
        /\ (0 < k -> chunk_metadata s <> [] \/ k <= ntotal ix ->
            exists results,
              search_knowledge s query k = Ok results
              /\ (List.length results <= Z.to_nat k)%nat
              /\ Forall (fun r => In (sr_chunk r) (chunk_metadata s))
                   results))
  /\ (forall ix d e,
        index s = Some ix ->
        embed_query query = Ok {| shape := [1; d]; rows := [e] |} ->
        d <> index_d ix ->
        search_knowledge s query k = Raise AssertionError).
Proof.
  split; [intros H; unfold search_knowledge; now rewrite H|].
  split.
  2:{ intros ix d e Hix He Hd. unfold search_knowledge.
      rewrite Hix, He. cbn [bind shape rows map]. unfold faiss_search.
      cbn [shape rows].
      destruct (Z.eqb_spec d (index_d ix)); [contradiction|reflexivity]. }
  intros ix e Hix He. unfold ntotal.
  split; [|split].
  - intros Hk. unfold search_knowledge.
    rewrite Hix, He. cbn [bind shape rows map]. unfold faiss_search.
    cbn [shape rows]. rewrite Z.eqb_refl. cbn [negb].
    destruct (Z.leb_spec k 0) as [_|?]; [reflexivity|lia].
  - intros Hk Hmd Hm.
    rewrite (search_knowledge_embedded s ix query e k Hix He Hk).
    destruct (top_k_split
                (map (inner_product (normalize_L2 e)) (index_xb ix)) k Hk)
      as (found & -> & _ & Hlab).
    rewrite Hmd, collect_results_app, collect_results_skip.
    2:{ eapply List.Forall_impl; [|exact Hlab].
        intros h (j & -> & _). cbn [List.length]. lia. }
    cbn [bind]. rewrite length_map.
    destruct (Z.to_nat k - List.length (index_xb ix))%nat eqn:E; [lia|].
    reflexivity.
  - intros Hk Hcase.
    rewrite (search_knowledge_embedded s ix query e k Hix He Hk).
    destruct (top_k_split
                (map (inner_product (normalize_L2 e)) (index_xb ix)) k Hk)
      as (found & -> & Hlen & Hlab).
    rewrite length_map in *.
    assert (Hc : exists candidates,
               collect_results (chunk_metadata s)
                 (found ++ repeat (PyFloat.neg_flt_max, -1)
                             (Z.to_nat k - List.length (index_xb ix)))
               = Ok candidates).
    { destruct (chunk_metadata s) as [|c md] eqn:Hmd.
      - destruct Hcase as [?|Hle]; [congruence|].
        replace (Z.to_nat k - List.length (index_xb ix))%nat with 0%nat
          by lia.
        cbn [repeat]. rewrite app_nil_r. exists [].
        apply collect_results_skip.
        eapply List.Forall_impl; [|exact Hlab].
        intros h (j & -> & _). cbn [List.length]. lia.
      - apply collect_results_total; [discriminate|].
        apply Forall_app. split.
        + eapply List.Forall_impl; [|exact Hlab]. intros h (j & -> & _). lia.
        + apply List.Forall_forall. intros h Hin.
          apply repeat_spec in Hin. subst h. cbn [snd]. lia. }
    destruct Hc as (candidates & Hc). rewrite Hc. cbn [bind].
    destruct (collect_results_members _ _ _ Hc) as (Hle & Hin).
    eexists. split; [reflexivity|]. split.
    + rewrite <- (Permutation_length (sort_desc_perm final_score candidates)).
      rewrite length_app, repeat_length in Hle. lia.
    + eapply Permutation_Forall; [apply sort_desc_perm|exact Hin].
Qed.

Lemma search_outcomes_witness :
  @search_knowledge sample_services (__init__ None) "growth" 5 = Ok []
  /\ @search_knowledge sample_services two_chunk_kb "growth" 0
     = Raise AssertionError
  /\ @search_knowledge sample_services
       (with_chunk_metadata two_chunk_kb []) "growth" 3
     = Raise IndexError
  /\ (exists results,
        @search_knowledge sample_services two_chunk_kb "growth" 3 = Ok results
        /\ (List.length results <= 3)%nat
        /\ Forall (fun r => In (sr_chunk r) (chunk_metadata two_chunk_kb))
             results)
  /\ @search_knowledge sample_services
       (with_index two_chunk_kb (Some (sample_index 2))) "growth" 3
     = Raise AssertionError.
Proof.
  split; [apply (@search_outcomes sample_services (__init__ None));
          reflexivity|].
  split; [eapply (proj1 (proj2 (@search_outcomes sample_services
                                  two_chunk_kb "growth" 0)));
          [reflexivity|vm_compute; reflexivity|lia]|].
  split; [eapply (proj1 (proj2 (@search_outcomes sample_services
                                  (with_chunk_metadata two_chunk_kb [])
                                  "growth" 3)));
          [reflexivity|vm_compute; reflexivity|lia|reflexivity
           |vm_compute; reflexivity]|].
  split; [eapply (proj1 (proj2 (@search_outcomes sample_services
                                  two_chunk_kb "growth" 3)));
          [reflexivity|vm_compute; reflexivity|lia|left; discriminate]|].
  eapply (proj2 (proj2 (@search_outcomes sample_services
                          (with_index two_chunk_kb (Some (sample_index 2)))
                          "growth" 3)));
    [reflexivity|vm_compute; reflexivity|discriminate].
Defined.

(** X14. When the query is embedded as a row of the dimension of the
    index, the chunk collection has as many chunks as the index has
    vectors, at least one, and [k] exceeds that number [m], the search
    returns exactly [k] results: [m] of them for the vectors of the index,
    and [k - m] more that carry the last chunk of the collection with the
    similarity [-FLT_MAX]. *)
Theorem search_pads_with_last_chunk {Sv : Services} (s : RAGKnowledgeBase)
    (ix : FaissIndex) (metadata : list Chunk) (last : Chunk)
    (query : string) (e : vector) (k : Z) :
  index s = Some ix ->
  embed_query query = Ok {| shape := [1; index_d ix]; rows := [e] |} ->
  chunk_metadata s = metadata ++ [last] ->
  List.length (index_xb ix) = List.length (chunk_metadata s) ->
  ntotal ix < k ->
  exists results found padding,
    search_knowledge s query k = Ok results
    /\ Z.of_nat (List.length results) = k
    /\ Permutation (found ++ padding) results
    /\ Z.of_nat (List.length found) = ntotal ix
    /\ Forall (fun r => sr_chunk r = last
                        /\ similarity_score r = PyFloat.neg_flt_max) padding.
Proof.
  intros Hix He Hmd Hpar Hk. unfold ntotal in *.
  rewrite (search_knowledge_embedded s ix query e k Hix He ltac:(lia)).
  destruct (top_k_split
              (map (inner_product (normalize_L2 e)) (index_xb ix)) k
              ltac:(lia)) as (hits & -> & Hlen & Hlab).
  rewrite length_map in *. rewrite collect_results_app.
  destruct (collect_results_valid (chunk_metadata s) hits)
    as (found & Hfound & Hall).
  { eapply List.Forall_impl; [|exact Hlab]. intros h (j & Hj & Hnth).
    exists j. split; [exact Hj|]. rewrite <- Hpar.
    rewrite nth_error_map in Hnth.
    destruct (nth_error (index_xb ix) j) eqn:E; [|discriminate].
    apply nth_error_Some. congruence. }
  rewrite Hfound. cbn [bind]. rewrite Hmd.
  destruct (collect_results_padding metadata last
              (Z.to_nat k - List.length (index_xb ix)))
    as (padding & -> & Hpl & Hpad).
  cbn [bind]. apply Forall2_length in Hall.
  exists (sort_desc final_score (found ++ padding)), found, padding.
  split; [reflexivity|].
  split; [|split; [apply sort_desc_perm|split; [lia|exact Hpad]]].
  rewrite <- (Permutation_length (sort_desc_perm final_score _)).
  rewrite length_app. lia.
Qed.

Lemma search_pads_with_last_chunk_witness :
  exists results found padding,
    @search_knowledge sample_services two_chunk_kb "growth" 5 = Ok results
    /\ Z.of_nat (List.length results) = 5
    /\ Permutation (found ++ padding) results
    /\ Z.of_nat (List.length found) = 2
    /\ Forall (fun r => sr_chunk r
                        = sample_chunk "far, good" (Some PyFloat.f_1_0)
                        /\ similarity_score r = PyFloat.neg_flt_max) padding.
Proof.
  apply (@search_pads_with_last_chunk sample_services two_chunk_kb
           {| index_d := 384;
              index_xb := [along_first_axis f_0_75;
                           along_first_axis f_0_7] |}
           [sample_chunk "near, plain" (Some PyFloat.f_0_0)]
           (sample_chunk "far, good" (Some PyFloat.f_1_0)) "growth"
           (along_first_axis PyFloat.f_1_0) 5);
    [reflexivity|vm_compute; reflexivity|reflexivity|reflexivity
     |vm_compute; reflexivity].
Defined.

(** ** The coaches: one knowledge base object for all of them *)

Lemma load_coach_fresh (m : CoachManager) (creator_id : Z)
    (profile : CoachProfile) (ix : FaissIndex) (chunks : list Chunk)
    (w : World) :
  active_coaches m !! creator_id = None ->
  coach_profiles m !! creator_id = Some profile ->
  disk w !! index_path creator_id = Some (IndexFile ix) ->
  disk w !! metadata_path creator_id = Some (MetadataFile chunks) ->
  load_coach m creator_id w
  = (Ok (Some {| ac_creator_id := creator_id; ac_coach_profile := profile |},
         {| coach_profiles := coach_profiles m;
            active_coaches :=
              <[creator_id := {| ac_creator_id := creator_id;
                                 ac_coach_profile := profile |}]>
                (active_coaches m) |}),
     {| self := with_chunk_metadata (with_index (self w) (Some ix)) chunks;
        disk := disk w |}).
Proof.
  intros Ha Hp Hi Hm. unfold load_coach. rewrite Ha, Hp.
  unfold bindM. rewrite (load_both_files _ _ _ _ Hi Hm). reflexivity.
Qed.

(** X15. Coaches share the knowledge base object of their manager.  With
    the files of two creators [a] and [b] on disk, loading the coach of [a]
    and then the coach of [b] succeeds twice; loading the coach of [a]
    again returns the cached coach and reads nothing; and from then on the
    retrieval of the coach of [a] searches the index and the chunks of
    [b]. *)
Theorem coaches_share_one_knowledge_base {Sv : Services} (m : CoachManager)
    (w : World) (a b : Z) (profile_a profile_b : CoachProfile)
    (ix_a ix_b : FaissIndex) (chunks_a chunks_b : list Chunk) :
  a <> b ->
  active_coaches m !! a = None -> active_coaches m !! b = None ->
  coach_profiles m !! a = Some profile_a ->
  coach_profiles m !! b = Some profile_b ->
  disk w !! index_path a = Some (IndexFile ix_a) ->
  disk w !! metadata_path a = Some (MetadataFile chunks_a) ->
  disk w !! index_path b = Some (IndexFile ix_b) ->
  disk w !! metadata_path b = Some (MetadataFile chunks_b) ->
  exists coach_a coach_b m1 m2 w1 w2,
    load_coach m a w = (Ok (Some coach_a, m1), w1)
    /\ load_coach m1 b w1 = (Ok (Some coach_b, m2), w2)
    /\ load_coach m2 a w2 = (Ok (Some coach_a, m2), w2)
    /\ ac_creator_id coach_a = a
    /\ index (self w2) = Some ix_b
    /\ chunk_metadata (self w2) = chunks_b
    /\ forall question k,
         relevant_chunks coach_a question k w2
         = (search_knowledge
              {| db := db (self w); index := Some ix_b;
                 chunk_metadata := chunks_b;
                 embedding_dimension := embedding_dimension (self w) |}
              question k, w2).
Proof.
  intros Hab Haa Hab' Hpa Hpb Hia Hma Hib Hmb.
  do 6 eexists.
  split; [apply (load_coach_fresh m a profile_a ix_a chunks_a w);
          assumption|].
  split.
  { apply (load_coach_fresh _ b profile_b ix_b chunks_b); cbn.
    - rewrite lookup_insert_ne by congruence. exact Hab'.
    - exact Hpb.
    - exact Hib.
    - exact Hmb. }
  split.
  { unfold load_coach. cbn [active_coaches].
    rewrite lookup_insert_ne by congruence.
    rewrite lookup_insert_eq. reflexivity. }
  repeat split.
Qed.

Lemma coaches_share_one_knowledge_base_witness :
  exists coach_7 coach_8 m1 m2 w1 w2,
    load_coach sample_manager 7
      {| self := __init__ None; disk := two_creator_disk |}
    = (Ok (Some coach_7, m1), w1)
    /\ load_coach m1 8 w1 = (Ok (Some coach_8, m2), w2)
    /\ load_coach m2 7 w2 = (Ok (Some coach_7, m2), w2)
    /\ ac_creator_id coach_7 = 7
    /\ index (self w2) = Some (sample_index 3)
    /\ chunk_metadata (self w2) = sample_chunks 3.
Proof.
  destruct (@coaches_share_one_knowledge_base sample_services sample_manager
              {| self := __init__ None; disk := two_creator_disk |} 7 8
              sample_profile sample_profile (sample_index 2) (sample_index 3)
              (sample_chunks 2) (sample_chunks 3))
    as (c7 & c8 & m1 & m2 & w1 & w2 & H1 & H2 & H3 & H4 & H5 & H6 & _);
    try (vm_compute; reflexivity); [discriminate|].
  exists c7, c8, m1, m2, w1, w2. repeat split; assumption.
Defined.

(** X16. A failed load of one coach changes what the others search.  When
    the coach of [a] is loaded and creator [b] has a profile and an index
    file but no metadata file, loading the coach of [b] returns no coach and
    caches none, yet the object the coach of [a] searches now holds the
    index of [b] beside the chunks of [a]. *)
Theorem failed_load_coach_replaces_index {Sv : Services} (m : CoachManager)
    (w : World) (a b : Z) (coach_a : AICoach) (profile_b : CoachProfile)
    (ix_b : FaissIndex) :
  active_coaches m !! a = Some coach_a ->
  active_coaches m !! b = None ->
  coach_profiles m !! b = Some profile_b ->
  disk w !! index_path b = Some (IndexFile ix_b) ->
  disk w !! metadata_path b = None ->
  exists w',
    load_coach m b w = (Ok (None, m), w')
    /\ load_coach m a w' = (Ok (Some coach_a, m), w')
    /\ index (self w') = Some ix_b
    /\ chunk_metadata (self w') = chunk_metadata (self w)
    /\ forall question k,
         relevant_chunks coach_a question k w'
         = (search_knowledge (with_index (self w) (Some ix_b)) question k,
            w').
Proof.
  intros Ha Hb Hp Hi Hm. eexists. split.
  { unfold load_coach. rewrite Hb, Hp.
    unfold bindM, load_knowledge_base, try_except, bindM, read_file,
      get_self, set_self, raise, ret.
    rewrite Hi. cbn [disk self]. rewrite Hm. reflexivity. }
  split; [unfold load_coach; rewrite Ha; reflexivity|].
  repeat split.
Qed.

Lemma failed_load_coach_replaces_index_witness :
  exists coach_7 m1 w1 w2,
    load_coach sample_manager 7
      {| self := __init__ None; disk := half_written_disk |}
    = (Ok (Some coach_7, m1), w1)
    /\ load_coach m1 8 w1 = (Ok (None, m1), w2)
    /\ index (self w2) = Some (sample_index 3)
    /\ chunk_metadata (self w2) = sample_chunks 2.
Proof.
  do 2 eexists.
  destruct (@failed_load_coach_replaces_index sample_services
              {| coach_profiles := coach_profiles sample_manager;
                 active_coaches :=
                   <[7 := {| ac_creator_id := 7;
                             ac_coach_profile := sample_profile |}]> ∅ |}
              {| self := with_chunk_metadata
                           (with_index (__init__ None)
                              (Some (sample_index 2)))
                           (sample_chunks 2);
                 disk := half_written_disk |}
              7 8 {| ac_creator_id := 7; ac_coach_profile := sample_profile |}
              sample_profile (sample_index 3))
    as (w2 & H1 & _ & H3 & H4 & _);
    try (vm_compute; reflexivity).
  do 2 eexists. split; [vm_compute; reflexivity|].
  split; [exact H1|]. split; [exact H3|exact H4].
Defined.

(** ** A build that fails while saving *)

(** X17. A build that raises in its save step has by then replaced the
    knowledge base of the object: with services that embed in [d]
    coordinates and posts that give at least one chunk, a build whose save
    fails raises [OSError] and returns no summary, yet the object holds the
    new index of one vector per chunk and the new chunks, while the metadata
    file on disk is the one from before (and so is the index file when the
    save failed before writing it). *)
Theorem failed_build_keeps_new_index {T : Tokenizer} {Sv : Services}
    (d : nat) (io : fault) (creator_id : Z) (posts : list Post)
    (coach_profile : CoachProfile) (chunks : list Chunk) (w : World) :
  embeds_in d ->
  _chunk_content_strategically posts coach_profile = Ok chunks ->
  chunks <> [] ->
  io <> NoFault ->
  exists ix w',
    create_knowledge_base io creator_id posts coach_profile w
    = (Raise OSError, w')
    /\ index (self w') = Some ix
    /\ index_d ix = Z.of_nat d
    /\ ntotal ix = Z.of_nat (List.length chunks)
    /\ chunk_metadata (self w') = chunks
    /\ disk w' !! metadata_path creator_id
       = disk w !! metadata_path creator_id
    /\ (io = FailBeforeIndex -> disk w' = disk w).
Proof.
  intros He Hc Hne Hio.
  destruct (generate_embeddings_ok d chunks He Hne) as (vectors & Hg & Hl).
  destruct (save_chunks_to_database_world creator_id chunks
              {| shape := [Z.of_nat (List.length chunks); Z.of_nat d];
                 rows := vectors |} w) as (database & Hs).
  exists {| index_d := Z.of_nat d; index_xb := map normalize_L2 vectors |}.
  unfold create_knowledge_base.
  unfold bindM at 1. unfold lift at 1. rewrite Hc.
  unfold bindM at 1. unfold lift at 1. rewrite Hg.
  unfold bindM at 1. rewrite Hs.
  unfold _build_faiss_index, _save_knowledge_base, index_add, IndexFlatIP,
    bindM, lift, get_self, set_self, write_file, ret, raise, with_index,
    with_chunk_metadata, with_db.
  cbn [shape rows index_d index_xb self disk index chunk_metadata db
       embedding_dimension].
  change (py_index [Z.of_nat (List.length chunks); Z.of_nat d] 1)
    with (@Ok Z (Z.of_nat d)).
  cbn [index_d index_xb self disk index chunk_metadata db
       embedding_dimension shape rows].
  rewrite Z.eqb_refl.
  cbn [index_d index_xb self disk index chunk_metadata db
       embedding_dimension app].
  destruct io; [congruence| |]; eexists; (split; [reflexivity|]);
    cbn [self disk index chunk_metadata]; unfold ntotal;
    cbn [index_d index_xb]; rewrite length_map, Hl;
    repeat split; try discriminate.
  rewrite lookup_insert_ne; [reflexivity|].
  apply (proj2 (proj2 (paths_distinct creator_id creator_id))).
Qed.

Lemma failed_build_keeps_new_index_witness :
  exists ix w',
    @create_knowledge_base char_tokenizer sample_services FailBeforeIndex 7
      [quiet_post] sample_profile initial_world = (Raise OSError, w')
    /\ index (self w') = Some ix
    /\ ntotal ix = 1
    /\ disk w' = ∅.
Proof.
  pose proof (fun chunks =>
                @failed_build_keeps_new_index char_tokenizer sample_services
                  384 FailBeforeIndex 7 [quiet_post] sample_profile chunks
                  initial_world sample_services_embed_in_384) as H.
  edestruct H as (ix & w' & Hb & Hi & _ & Hn & _ & _ & Hd);
    [vm_compute; reflexivity | discriminate | discriminate |].
  exists ix, w'. rewrite Hn, (Hd eq_refl). repeat split; assumption.
Defined.

(** ** Embedder: the batches handed to the services *)

(** X18. The embedder hands the texts of the chunks to the services in
    batches that, laid end to end, are the texts in order; no batch is
    empty, none has more than 100 texts, and every batch but the last has
    exactly 100. *)
Theorem embedding_batches {Sv : Services} (chunks : list Chunk) :
  exists batches,
    _generate_embeddings chunks
    = np_array (concat (map embed_batch batches))
    /\ concat batches = map chunk_text chunks
    /\ Forall (fun batch => (1 <= List.length batch <= 100)%nat) batches
    /\ forall j batch,
         (Datatypes.S j < List.length batches)%nat ->
         nth_error batches j = Some batch ->
         List.length batch = 100%nat.
Proof.
  exists (batches_of (map chunk_text chunks)).
  split; [apply generate_embeddings_unfold|].
  split; [apply batches_cover|].
  set (texts := map chunk_text chunks). unfold batches_of.
  destruct (window_count (Z.of_nat (List.length texts)) 100 ltac:(lia)
              ltac:(lia)) as (Hc0 & Hcover & Hlast).
  set (c := (Z.of_nat (List.length texts) + 100 - 1) / 100) in *.
  split.
  - apply List.Forall_forall. intros batch Hin.
    apply in_map_iff in Hin. destruct Hin as (j & <- & Hj).
    apply in_seq in Hj. rewrite length_firstn, length_skipn. lia.
  - intros j batch Hj Hnth. rewrite length_map, length_seq in Hj.
    rewrite nth_error_map, nth_error_seq in Hnth.
    destruct (Nat.ltb_spec j (Z.to_nat c)) as [_|?]; [|lia].
    cbn in Hnth. injection Hnth as <-.
    rewrite length_firstn, length_skipn. lia.
Qed.

(** ** Chunk Builder: the chunks of one content follow its windows *)



(** ** Matching a text to an expertise area *)

Lemma lower_char_idem (c : ascii) :
  PyStr.lower_char (PyStr.lower_char c) = PyStr.lower_char c.
Proof.
  destruct c as [[] [] [] [] [] [] [] []]; vm_compute; reflexivity.
Qed.

Lemma lower_idem (s : string) : PyStr.lower (PyStr.lower s) = PyStr.lower s.
Proof.
  induction s as [|c s IH]; [reflexivity|].
  cbn [PyStr.lower]. now rewrite lower_char_idem, IH.
Qed.

(** X20. [_match_expertise_area] answers with the first area, in the order
    of the list, whose lower-cased name occurs in the lower-cased content,
    and with ["general"] when there is none; the case of the content does
    not change the answer. *)
Theorem match_expertise_area_first_match (content : string)
    (expertise_areas : list string) :
  let occurs area :=
    PyStr.contains (PyStr.lower area) (PyStr.lower content) in
  _match_expertise_area (PyStr.lower content) expertise_areas
  = _match_expertise_area content expertise_areas
  /\ ((exists before after,
         expertise_areas
         = before ++ _match_expertise_area content expertise_areas :: after
         /\ occurs (_match_expertise_area content expertise_areas) = true
         /\ Forall (fun area => occurs area = false) before)
      \/ (_match_expertise_area content expertise_areas = "general"
          /\ Forall (fun area => occurs area = false) expertise_areas)).
Proof.
  intros occurs. split.
  - induction expertise_areas as [|area rest IH]; [reflexivity|].
    cbn [_match_expertise_area]. rewrite lower_idem, IH. reflexivity.
  - induction expertise_areas as [|area rest IH].
    + right. split; [reflexivity|constructor].
    + cbn [_match_expertise_area]. fold (occurs area).
      destruct (occurs area) eqn:E.
      * left. exists [], rest. split; [reflexivity|].
        split; [exact E|constructor].
      * destruct IH as [(before & after & Heq & Hocc & Hno)|(Hg & Hno)].
        -- left. exists (area :: before), after.
           split; [cbn [app]; now rewrite <- Heq|].
           split; [exact Hocc|]. constructor; assumption.
        -- right. split; [exact Hg|]. constructor; assumption.
Qed.

(** ** Searching an empty or unbuilt knowledge base *)








